(** * convert_to_csvs: flattening tweets and keyword classification

    A shallow embedding of [src/convert_to_csvs.py]: the keyword
    classifier ([KeywordFilter]), the entity extractor
    ([parse_entity_details], [extract_entities]), the flattener
    ([record_tweet], [record_user]) and the driver ([process_tweet]).

    Python values are the values [json.loads] produces.  A Python
    exception is an [Err] result; the rows handed to the CSV writer are
    collected in a trace, so that what was written before an exception
    stays written.  Python's own [str.lower] and [str.strip] are
    parameters ([PyStr]): the properties hold for whatever they do. *)

From Stdlib Require Import List String Ascii ZArith Bool Arith Lia.
Import ListNotations.
Open Scope string_scope.
Open Scope list_scope.
Set Warnings "-register-all".

(** ** Python values and exceptions *)

(** A Python float: only its truth value is ever observed by the
    program ([0.0] and [-0.0] are false, everything else is true). *)
Inductive pyfloat : Type :=
| FNaN
| FInf (negative : bool)
| FFinite (negative : bool) (mantissa : N) (exponent : Z).

(** The values [json.loads] builds.  A [dict] keeps its insertion order,
    so an object is an association list; lookup takes the first binding
    of a key. *)
Inductive value : Type :=
| JNull
| JBool (b : bool)
| JInt (n : Z)
| JFloat (f : pyfloat)
| JStr (s : string)
| JArr (items : list value)
| JObj (members : list (string * value)).

(** The exceptions the program can raise.  [RecursionError] is only what
    [process_tweet_aux] answers when its recursion bound is used up. *)
Inductive exn : Type :=
| KeyError (key : string)
| TypeError
| AttributeError
| RecursionError.

Inductive res (A : Type) : Type :=
| Ok (a : A)
| Err (e : exn).
Arguments Ok {A} a.
Arguments Err {A} e.

Definition bind {A B : Type} (m : res A) (k : A -> res B) : res B :=
  match m with
  | Ok a => k a
  | Err e => Err e
  end.

Notation "x <- m ;; k" := (bind m (fun x => k))
  (at level 61, m at next level, right associativity).
Notation "' pat <- m ;; k" := (bind m (fun x => match x with pat => k end))
  (at level 61, pat pattern, m at next level, right associativity).

(** [for x in xs: acc = body(acc, x)], stopping at the first exception. *)
Fixpoint for_each {A S : Type} (xs : list A) (acc : S)
    (body : S -> A -> res S) : res S :=
  match xs with
  | [] => Ok acc
  | x :: rest => acc' <- body acc x ;; for_each rest acc' body
  end.

(** [[f(x) for x in xs]], stopping at the first exception. *)
Fixpoint comprehension {A B : Type} (f : A -> res B) (xs : list A)
    : res (list B) :=
  match xs with
  | [] => Ok []
  | x :: rest => y <- f x ;; ys <- comprehension f rest ;; Ok (y :: ys)
  end.

(** ** Dictionaries *)

Definition dict (V : Type) : Type := list (string * V).

Fixpoint lookup {V : Type} (k : string) (d : dict V) : option V :=
  match d with
  | [] => None
  | (k', v) :: rest => if String.eqb k k' then Some v else lookup k rest
  end.

Definition keys {V : Type} (d : dict V) : list string := map fst d.

(** [d[k] = v]: an existing key keeps its position, a new key goes last. *)
Fixpoint dict_set {V : Type} (k : string) (v : V) (d : dict V) : dict V :=
  match d with
  | [] => [(k, v)]
  | (k', v') :: rest =>
      if String.eqb k k' then (k', v) :: rest else (k', v') :: dict_set k v rest
  end.

(** [d[k]] on a dictionary built by the program. *)
Definition dict_getitem {V : Type} (d : dict V) (k : string) : res V :=
  match lookup k d with
  | Some v => Ok v
  | None => Err (KeyError k)
  end.

(** [{ k: v for k in ks }] *)
Definition dict_fromkeys {V : Type} (ks : list string) (v : V) : dict V :=
  fold_left (fun d k => dict_set k v d) ks [].

(** ** Operations on values *)

(** [v.get(k)]: only a [dict] has the method; a missing key and a
    [null] member both give [None]. *)
Definition py_get (v : value) (k : string) : res value :=
  match v with
  | JObj kvs =>
      Ok (match lookup k kvs with Some x => x | None => JNull end)
  | _ => Err AttributeError
  end.

(** [v[k]] with a string key [k]. *)
Definition py_index (v : value) (k : string) : res value :=
  match v with
  | JObj kvs =>
      match lookup k kvs with
      | Some x => Ok x
      | None => Err (KeyError k)
      end
  | _ => Err TypeError
  end.

Fixpoint chars (s : string) : list value :=
  match s with
  | EmptyString => []
  | String c rest => JStr (String c EmptyString) :: chars rest
  end.

(** [len(v)].  The program only compares it with 0, so for a string
    the length of its UTF-8 form serves. *)
Definition py_len (v : value) : res nat :=
  match v with
  | JStr s => Ok (String.length s)
  | JArr l => Ok (List.length l)
  | JObj kvs => Ok (List.length kvs)
  | _ => Err TypeError
  end.

(** [iter(v)]: a list gives its items, a dict its keys, a string its
    characters (one-character strings; the program indexes each with a
    string key, which raises whatever the character). *)
Definition py_iter (v : value) : res (list value) :=
  match v with
  | JStr s => Ok (chars s)
  | JArr l => Ok l
  | JObj kvs => Ok (map (fun kv => JStr (fst kv)) kvs)
  | _ => Err TypeError
  end.

Definition float_truthy (f : pyfloat) : bool :=
  match f with
  | FFinite _ m _ => negb (N.eqb m 0)
  | _ => true
  end.

(** [bool(v)] *)
Definition py_truthy (v : value) : bool :=
  match v with
  | JNull => false
  | JBool b => b
  | JInt n => negb (Z.eqb n 0)
  | JFloat f => float_truthy f
  | JStr s => negb (String.eqb s "")
  | JArr l => match l with [] => false | _ => true end
  | JObj kvs => match kvs with [] => false | _ => true end
  end.

(** [v is True] *)
Definition is_True (v : value) : bool :=
  match v with
  | JBool true => true
  | _ => false
  end.

(** [v is None] *)
Definition is_None (v : value) : bool :=
  match v with
  | JNull => true
  | _ => false
  end.

(** [term == v] for a string [term]. *)
Definition str_eq_value (term : string) (v : value) : bool :=
  match v with
  | JStr s => String.eqb term s
  | _ => false
  end.

(** Lists and dicts cannot be members of a [set]. *)
Definition hashable (v : value) : bool :=
  match v with
  | JArr _ | JObj _ => false
  | _ => true
  end.

(** ** Strings *)

(** Text is held in UTF-8.  What the program observes of a string is
    whether it equals another, whether one occurs in another, whether it
    is empty, and what [lower], [strip] and [replace(" ", "")] make of
    it; all but [lower] and [strip] are the same on the UTF-8 form as on
    the characters. *)

(** [s.replace(" ", "")] *)
Fixpoint remove_spaces (s : string) : string :=
  match s with
  | EmptyString => EmptyString
  | String c rest =>
      if Ascii.eqb c " "%char then remove_spaces rest
      else String c (remove_spaces rest)
  end.

(** [term in text] *)
Fixpoint str_in (term text : string) : bool :=
  if String.prefix term text then true
  else match text with
       | EmptyString => false
       | String _ rest => str_in term rest
       end.

(** [str.lower] and [str.strip] are Python's, not the program's, and
    follow the Unicode tables: the model takes them as they are, as
    parameters.  Nothing is assumed of them here. *)
Class PyStr : Type := {
  str_lower : string -> string;
  str_strip : string -> string
}.

(** [v.lower()]: only a string has the method. *)
Definition py_lower `{PyStr} (v : value) : res string :=
  match v with
  | JStr s => Ok (str_lower s)
  | _ => Err AttributeError
  end.

(** *** Text of 7-bit characters *)

Definition lower_ascii (c : ascii) : ascii :=
  let n := nat_of_ascii c in
  if andb (Nat.leb 65 n) (Nat.leb n 90) then ascii_of_nat (n + 32) else c.

(** What [s.lower()] gives on 7-bit text. *)
Fixpoint ascii_lower (s : string) : string :=
  match s with
  | EmptyString => EmptyString
  | String c rest => String (lower_ascii c) (ascii_lower rest)
  end.

(** The 7-bit characters that [str.strip] removes. *)
Definition is_space (c : ascii) : bool :=
  let n := nat_of_ascii c in
  (Nat.leb 9 n && Nat.leb n 13) || (Nat.leb 28 n && Nat.leb n 32).

Fixpoint ascii_lstrip (s : string) : string :=
  match s with
  | EmptyString => EmptyString
  | String c rest => if is_space c then ascii_lstrip rest else s
  end.

Fixpoint ascii_rstrip (s : string) : string :=
  match s with
  | EmptyString => EmptyString
  | String c rest =>
      match ascii_rstrip rest with
      | EmptyString => if is_space c then EmptyString else String c EmptyString
      | kept => String c kept
      end
  end.

(** What [s.strip()] gives on 7-bit text. *)
Definition ascii_strip (s : string) : string := ascii_rstrip (ascii_lstrip s).

(** Python's two methods as they act on 7-bit text; the examples, which
    are made of such text, are evaluated with it. *)
Definition ascii_text : PyStr :=
  {| str_lower := ascii_lower; str_strip := ascii_strip |}.

(** ** Module constants *)

Definition KEYWORD_FIELDS : list string := ["text"; "author"; "entities"].

Definition BASIC_FIELDS : list string :=
  ["timestamp_ms"; "in_reply_to_screen_name"; "in_reply_to_user_id_str";
   "favorite_count"; "quote_count"; "coordinates"; "favorited"; "id_str";
   "text"; "in_reply_to_user_id"; "place"; "geo"; "retweet_count";
   "reply_count"; "in_reply_to_status_id"; "retweeted"; "is_quote_status";
   "filter_level"; "lang"; "in_reply_to_status_id_str"; "created_at";
   "source"; "contributors"].

Definition USER_FIELDS : list string :=
  ["statuses_count"; "utc_offset"; "listed_count"; "translator_type";
   "followers_count"; "time_zone"; "name"; "protected"; "screen_name";
   "is_translator"; "contributors_enabled"; "url"; "id_str"; "location";
   "created_at"; "geo_enabled"; "description"; "lang"; "profile_image_url";
   "profile_background_image_url"; "favourites_count"; "verified";
   "friends_count"].

Definition ENTITY_FIELDS : list string :=
  ["urls"; "user_id_mentions"; "user_screenname_mentions"; "symbols";
   "hashtags"; "media"].

Definition user_field_out (field : string) : string :=
  String.append "user." field.

Definition USER_FIELDS_OUT : list string := map user_field_out USER_FIELDS.

Definition TWEET_REF_FIELDS : list string :=
  ["retweeted_status"; "quoted_status"].

Definition FIELDNAMES : list string :=
  BASIC_FIELDS ++ TWEET_REF_FIELDS ++ ENTITY_FIELDS ++ ["user.id_str"].

(** ** The keyword classifier *)

Module KeywordFilter.

(** The three bound methods a filter table can hold. *)
Inductive method : Type :=
| CheckAuthor
| CheckText
| CheckEntities.

Record t : Type := mk {
  keywords : option (list string);
  flag : string;
  do_filter : bool;
  filters : dict method
}.

Definition FILTERS : dict method :=
  [("author", CheckAuthor); ("text", CheckText); ("entities", CheckEntities)].

(** [__init__]: with a non-empty [filters] argument, the table keeps
    the entries of [FILTERS] whose name occurs in it. *)
Definition init (keywords : option (list string)) (flag : string)
    (do_filter : bool) (filters : option (list string)) : res t :=
  table <-
    match filters with
    | Some ((_ :: _) as names) =>
        for_each (keys FILTERS) []
          (fun table f =>
             if existsb (String.eqb f) names
             then m <- dict_getitem FILTERS f ;; Ok (dict_set f m table)
             else Ok table)
    | _ => Ok FILTERS
    end ;;
  Ok (mk keywords flag do_filter table).

(** Iterating [self.keywords]; [None] is not iterable. *)
Definition iter_keywords (self : t) : res (list string) :=
  match keywords self with
  | Some terms => Ok terms
  | None => Err TypeError
  end.

Definition check_author (self : t) (tweet : value) : res bool :=
  user <- py_index tweet "user" ;;
  author <- py_index user "screen_name" ;;
  terms <- iter_keywords self ;;
  Ok (existsb (fun term => str_eq_value (remove_spaces term) author) terms).

(** [[h['text'].lower() for h in hs]] *)
Definition hashtag_texts `{PyStr} (hs : value) : res (list value) :=
  items <- py_iter hs ;;
  comprehension
    (fun h => text <- py_index h "text" ;; s <- py_lower text ;; Ok (JStr s))
    items.

(** [[m['screen_name'] for m in ms]] *)
Definition mention_names (ms : value) : res (list value) :=
  items <- py_iter ms ;;
  comprehension (fun m => py_index m "screen_name") items.

(** Lines 111-115 and again 117-121: the hashtags and mentions of one
    container of the extended tweet are appended when they are truthy. *)
Definition extend_with `{PyStr} (container : value)
    (acc : list value * list value) : res (list value * list value) :=
  let '(hashtags, mentions) := acc in
  if py_truthy container then
    hashtags1 <- py_get container "hashtags" ;;
    mentions1 <- py_get container "user_mentions" ;;
    hashtags <-
      (if py_truthy hashtags1
       then more <- hashtag_texts hashtags1 ;; Ok (hashtags ++ more)
       else Ok hashtags) ;;
    mentions <-
      (if py_truthy mentions1
       then more <- mention_names mentions1 ;; Ok (mentions ++ more)
       else Ok mentions) ;;
    Ok (hashtags, mentions)
  else Ok acc.

Definition check_entities `{PyStr} (self : t) (tweet : value) : res bool :=
  entities <- py_get tweet "entities" ;;
  base <-
    (if py_truthy entities then
       hs <- py_get entities "hashtags" ;;
       hashtags <- hashtag_texts hs ;;
       ms <- py_get entities "user_mentions" ;;
       mentions <- mention_names ms ;;
       Ok (hashtags, mentions)
     else Ok ([], [])) ;;
  truncated <- py_index tweet "truncated" ;;
  '(hashtags, mentions) <-
    (if py_truthy truncated then
       extended <- py_index tweet "extended_tweet" ;;
       extended_entities1 <- py_get extended "entities" ;;
       acc <- extend_with extended_entities1 base ;;
       extended <- py_index tweet "extended_tweet" ;;
       extended_entities2 <- py_get extended "extended_entities" ;;
       extend_with extended_entities2 acc
     else Ok base) ;;
  let vals := hashtags ++ mentions in
  if forallb hashable vals then
    terms <- iter_keywords self ;;
    Ok (existsb (fun term => existsb (str_eq_value term) vals) terms)
  else Err TypeError.

Definition check_text `{PyStr} (self : t) (tweet : value) : res bool :=
  truncated <- py_index tweet "truncated" ;;
  text <-
    (if py_truthy truncated then
       extended <- py_index tweet "extended_tweet" ;;
       py_index extended "full_text"
     else py_index tweet "text") ;;
  text <- py_lower text ;;
  terms <- iter_keywords self ;;
  Ok (existsb (fun term => str_in term text) terms).

Definition call `{PyStr} (self : t) (m : method) (tweet : value) : res bool :=
  match m with
  | CheckAuthor => check_author self tweet
  | CheckText => check_text self tweet
  | CheckEntities => check_entities self tweet
  end.

(** Every enabled check runs, in table order, before [any] looks at
    the results. *)
Definition check_tweet `{PyStr} (self : t) (tweet : value) : res bool :=
  filter_results <-
    comprehension
      (fun field => m <- dict_getitem (filters self) field ;; call self m tweet)
      (keys (filters self)) ;;
  Ok (existsb (fun b => b) filter_results).

Definition decide_write `{PyStr} (self : t) (tweet : value) : res bool :=
  has_keyword <- check_tweet self tweet ;;
  Ok (match keywords self with None => true | Some _ => false end
      || Bool.eqb (do_filter self) false
      || (do_filter self && has_keyword)).


End KeywordFilter.

(** ** The entity extractor *)

(** [v is not None and len(v) > 0] *)
Definition filled (v : value) : res bool :=
  if is_None v then Ok false
  else n <- py_len v ;; Ok (Nat.ltb 0 n).

(** [[x[member] for x in v]] *)
Definition select (member : string) (v : value) : res (list value) :=
  items <- py_iter v ;;
  comprehension (fun x => py_index x member) items.

Definition parse_entity_details (entities : value)
    : res (dict (list value)) :=
  let record := dict_fromkeys ENTITY_FIELDS [] in
  if is_None entities then Ok record
  else
    urls <- py_get entities "urls" ;;
    some <- filled urls ;;
    url_links <- (if some then select "expanded_url" urls else Ok []) ;;
    let record := dict_set "urls" url_links record in
    media <- py_get entities "media" ;;
    some <- filled media ;;
    media_links <- (if some then select "media_url" media else Ok []) ;;
    let record := dict_set "media" media_links record in
    hashtags <- py_get entities "hashtags" ;;
    some <- filled hashtags ;;
    record <-
      (if some
       then texts <- select "text" hashtags ;;
            Ok (dict_set "hashtags" texts record)
       else Ok record) ;;
    mentions <- py_get entities "user_mentions" ;;
    some <- filled mentions ;;
    record <-
      (if some
       then ids <- select "id_str" mentions ;;
            let record := dict_set "user_id_mentions" ids record in
            names <- select "screen_name" mentions ;;
            Ok (dict_set "user_screenname_mentions" names record)
       else Ok record) ;;
    symbols <- py_get entities "symbols" ;;
    some <- filled symbols ;;
    (if some
     then texts <- select "text" symbols ;;
          Ok (dict_set "symbols" texts record)
     else Ok record).

(** [for field in ENTITY_FIELDS: mine[field].extend(theirs[field])].
    The lists of [mine] are fresh ones built by [parse_entity_details],
    shared with nothing else, so extending in place is a pure update. *)
Definition extend_fields (mine theirs : dict (list value))
    : res (dict (list value)) :=
  for_each ENTITY_FIELDS mine
    (fun mine field =>
       old <- dict_getitem mine field ;;
       more <- dict_getitem theirs field ;;
       Ok (dict_set field (old ++ more) mine)).

Definition extract_entities (tweet : value) : res (dict (list value)) :=
  entities <- py_get tweet "entities" ;;
  parsed_entities <- parse_entity_details entities ;;
  truncated <- py_get tweet "truncated" ;;
  if is_True truncated then
    extended <- py_get tweet "extended_tweet" ;;
    entities2 <- py_get extended "entities" ;;
    parsed_entities <-
      (if is_None entities2 then Ok parsed_entities
       else parsed_entities2 <- parse_entity_details entities2 ;;
            extend_fields parsed_entities parsed_entities2) ;;
    ext_entities <- py_get extended "extended_entities" ;;
    (if is_None ext_entities then Ok parsed_entities
     else parsed_ext_entities <- parse_entity_details ext_entities ;;
          extend_fields parsed_entities parsed_ext_entities)
  else Ok parsed_entities.

(** ** The flattener *)

Definition record_user (tweet : value) : res (dict value) :=
  user <- py_get tweet "user" ;;
  let user_record := dict_fromkeys USER_FIELDS_OUT JNull in
  created_at <- py_get tweet "created_at" ;;
  let user_record := dict_set "tweet.created_at" created_at user_record in
  for_each USER_FIELDS user_record
    (fun user_record field =>
       v <- py_get user field ;;
       Ok (dict_set (user_field_out field) v user_record)).

Definition record_tweet (tweet : value) : res (dict value * list value) :=
  let record := dict_fromkeys FIELDNAMES JNull in
  let record_refs : list value := [] in
  record <-
    for_each BASIC_FIELDS record
      (fun record field =>
         v <- py_get tweet field ;; Ok (dict_set field v record)) ;;
  truncated <- py_get tweet "truncated" ;;
  record <-
    (if is_True truncated then
       extended <- py_get tweet "extended_tweet" ;;
       full_text <- py_get extended "full_text" ;;
       Ok (dict_set "text" full_text record)
     else Ok record) ;;
  entities <- extract_entities tweet ;;
  record <-
    for_each ENTITY_FIELDS record
      (fun record field =>
         l <- dict_getitem entities field ;;
         Ok (dict_set field (JArr l) record)) ;;
  for_each TWEET_REF_FIELDS (record, record_refs)
    (fun '(record, record_refs) field =>
       ref <- py_get tweet field ;;
       if is_None ref then Ok (record, record_refs)
       else id <- py_get ref "id_str" ;;
            Ok (dict_set field id record, record_refs ++ [ref])).

(** ** The driver *)

(** One call of [write_record_to_file], recorded with its arguments.
    The model follows the program while every write succeeds and the
    interpreter has stack left; an error of the file system or of the
    interpreter is not an outcome it has. *)
Record row : Type := Row {
  row_record : dict value;
  row_output_filename : string;
  row_is_user : bool;
  row_keywordflag : option string
}.

(** What [process_tweet] did: the rows written, in order, and whether it
    returned or raised. *)
Definition outcome : Type := (list row * res unit)%type.

(** Running [second] after [first]: an exception in [first] skips it,
    and the rows already written stay written. *)
Definition and_then (first second : outcome) : outcome :=
  match first with
  | (written, Ok _) => let '(more, r) := second in (written ++ more, r)
  | (written, Err e) => (written, Err e)
  end.

(** [for ref in refs: step(ref)] *)
Fixpoint for_refs (step : value -> outcome) (refs : list value) : outcome :=
  match refs with
  | [] => ([], Ok tt)
  | ref :: rest => and_then (step ref) (for_refs step rest)
  end.

(** Lines 239-244 of [process_tweet]: the retention decision and the
    flag column. *)
Definition write_decision `{PyStr} (tweet : value)
    (keywordfilter : option KeywordFilter.t) : res (bool * option string) :=
  match keywordfilter with
  | Some kf =>
      write_record <- KeywordFilter.decide_write kf tweet ;;
      Ok (write_record, Some (KeywordFilter.flag kf))
  | None => Ok (true, None)
  end.

Definition flag_truthy (keyword_flag : option string) : bool :=
  match keyword_flag with
  | Some f => negb (String.eqb f "")
  | None => false
  end.

(** Lines 246-250 of [process_tweet]: the two records and the embedded
    tweets. *)
Definition build_records `{PyStr} (tweet : value)
    (keywordfilter : option KeywordFilter.t) (keyword_flag : option string)
    : res (dict value * dict value * list value) :=
  '(record, refs) <- record_tweet tweet ;;
  record <-
    match keyword_flag with
    | Some f =>
        if flag_truthy keyword_flag then
          match keywordfilter with
          | Some kf =>
              m <- KeywordFilter.check_tweet kf tweet ;;
              Ok (dict_set f (JBool m) record)
          | None => Err AttributeError
          end
        else Ok record
    | None => Ok record
    end ;;
  user_record <- record_user tweet ;;
  user_id <- dict_getitem user_record "user.id_str" ;;
  Ok (dict_set "user.id_str" user_id record, user_record, refs).

(** [process_tweet], with the depth of recursion bounded by [fuel]. *)
Fixpoint process_tweet_aux `{PyStr} (fuel : nat) (tweet : value)
    (output_file : string) (keywordfilter : option KeywordFilter.t)
    : outcome :=
  match fuel with
  | O => ([], Err RecursionError)
  | S fuel' =>
      match write_decision tweet keywordfilter with
      | Err e => ([], Err e)
      | Ok (write_record, keyword_flag) =>
          if write_record then
            match build_records tweet keywordfilter keyword_flag with
            | Err e => ([], Err e)
            | Ok (record, user_record, refs) =>
                and_then
                  ([Row record output_file false keyword_flag;
                    Row user_record output_file true keyword_flag], Ok tt)
                  (for_refs
                     (fun ref =>
                        process_tweet_aux fuel' ref output_file keywordfilter)
                     refs)
            end
          else ([], Ok tt)
      end
  end.

(** Nesting depth of a decoded value. *)
Fixpoint depth (v : value) : nat :=
  match v with
  | JArr items =>
      S ((fix go (l : list value) : nat :=
            match l with
            | [] => 0
            | x :: rest => Nat.max (depth x) (go rest)
            end) items)
  | JObj members =>
      S ((fix go (l : list (string * value)) : nat :=
            match l with
            | [] => 0
            | (_, x) :: rest => Nat.max (depth x) (go rest)
            end) members)
  | _ => 0
  end.

(** An embedded tweet is a member of the tweet that holds it, so the
    recursion is never deeper than the value is nested. *)
Definition process_tweet `{PyStr} (tweet : value) (output_file : string)
    (keywordfilter : option KeywordFilter.t) : outcome :=
  process_tweet_aux (S (depth tweet)) tweet output_file keywordfilter.

(** ** Reference definitions for the statements *)

(** What one level contributes to one field of the bundle: the [member]
    of every item of [entities[kind]], in order, and nothing when the
    kind is absent, [null] or empty. *)
Definition level_field (entities : value) (kind member : string)
    (l : list value) : Prop :=
  exists source some,
    py_get entities kind = Ok source /\
    filled source = Ok some /\
    if some then select member source = Ok l else l = [].

(** The member of [entities] and the member of its items that each field
    of the bundle is read from. *)
Definition field_source : dict (string * string) :=
  [("urls", ("urls", "expanded_url"));
   ("user_id_mentions", ("user_mentions", "id_str"));
   ("user_screenname_mentions", ("user_mentions", "screen_name"));
   ("symbols", ("symbols", "text"));
   ("hashtags", ("hashtags", "text"));
   ("media", ("media", "media_url"))].


(** A member of [entities] that every loop of the extractor accepts:
    absent or [null], or a list of objects that all have [member]. *)
Definition items_have (member : string) (source : value) : bool :=
  match source with
  | JNull => true
  | JArr items =>
      forallb
        (fun x => match py_index x member with Ok _ => true | Err _ => false end)
        items
  | _ => false
  end.

Definition well_formed_entities (entities : value) : bool :=
  forallb
    (fun entry : string * (string * string) =>
       let '(_, (kind, member)) := entry in
       match py_get entities kind with
       | Ok source => items_have member source
       | Err _ => false
       end)
    field_source.


(** ** Sample inputs *)

(** A truncated tweet with entities at all three levels. *)
Definition sample_extended : value :=
  JObj [("full_text", JStr "the whole text with #b #a");
        ("entities",
         JObj [("hashtags", JArr [JObj [("text", JStr "b")];
                                  JObj [("text", JStr "a")]])]);
        ("extended_entities",
         JObj [("media", JArr [JObj [("media_url", JStr "http://m/1")]])])].

Definition sample_truncated : value :=
  JObj [("id_str", JStr "5");
        ("text", JStr "the whole");
        ("truncated", JBool true);
        ("user", JObj [("screen_name", JStr "bob"); ("id_str", JStr "7")]);
        ("entities",
         JObj [("hashtags", JArr [JObj [("text", JStr "a")]]);
               ("user_mentions",
                JArr [JObj [("id_str", JStr "8"); ("screen_name", JStr "al")]])]);
        ("extended_tweet", sample_extended)].


(** A tweet without the [truncated] member. *)
Definition sample_plain : value :=
  JObj [("id_str", JStr "1");
        ("text", JStr "hello world");
        ("user", JObj [("screen_name", JStr "bob"); ("id_str", JStr "7")])].

(** A rule that only flags: all three checks, no filtering. *)
Definition annotate_only : KeywordFilter.t :=
  KeywordFilter.mk (Some ["hello"]) "contains_keyword" false
    KeywordFilter.FILTERS.




(** The names among [names] that [FILTERS] knows, in table order. *)
Definition known_filters (names : list string)
    : dict KeywordFilter.method :=
  filter (fun entry => existsb (String.eqb (fst entry)) names)
    KeywordFilter.FILTERS.

Definition text_rule (terms : list string) : KeywordFilter.t :=
  KeywordFilter.mk (Some terms) "contains_keyword" true
    [("text", KeywordFilter.CheckText)].

Definition author_rule (terms : list string) : KeywordFilter.t :=
  KeywordFilter.mk (Some terms) "contains_keyword" true
    [("author", KeywordFilter.CheckAuthor)].

Definition tweet_by (screen_name : string) : value :=
  JObj [("id_str", JStr "1"); ("truncated", JBool false);
        ("text", JStr "Check out ai now");
        ("user", JObj [("screen_name", JStr screen_name)])].


(** A tweet whose [truncated] member is truthy without being [True]. *)
Definition sample_truthy : list (string * value) :=
  [("id_str", JStr "2"); ("truncated", JStr "yes"); ("text", JStr "hi")].


(** A retweet that also quotes: both embedded tweets are plain tweets. *)
Definition sample_retweeted : list (string * value) :=
  [("id_str", JStr "123"); ("text", JStr "the original");
   ("user", JObj [("screen_name", JStr "al"); ("id_str", JStr "8")])].

Definition sample_quoted : value :=
  JObj [("id_str", JStr "77"); ("text", JStr "the quoted one");
        ("user", JObj [("screen_name", JStr "cy"); ("id_str", JStr "9")])].

Definition sample_retweet : value :=
  JObj [("id_str", JStr "200"); ("text", JStr "RT the original");
        ("user", JObj [("screen_name", JStr "bob"); ("id_str", JStr "7")]);
        ("retweeted_status", JObj sample_retweeted);
        ("quoted_status", sample_quoted)].


(** A letter A to Z, and a string that holds one. *)
Definition is_upper (c : ascii) : bool :=
  let n := nat_of_ascii c in andb (Nat.leb 65 n) (Nat.leb n 90).

Fixpoint has_upper (s : string) : bool :=
  match s with
  | EmptyString => false
  | String c rest => is_upper c || has_upper rest
  end.


(** ** Writing rows *)



(** [DictWriter.writerow] with [extrasaction='ignore']: one cell per
    field name, the empty string for a key the record lacks. *)
Definition row_cells (fieldnames : list string) (record : dict value)
    : list value :=
  map (fun key => match lookup key record with
                  | Some v => v
                  | None => JStr ""
                  end)
    fieldnames.



(** The loop of [process_file] (lines 266-272) over the lines of the
    input: [None] is a line that [json.loads] rejects.  Every exception
    is caught and reported, and the loop goes on.  The result is the rows
    written and the exceptions reported; the pass that removes duplicate
    rows afterwards is not part of the model. *)
Fixpoint process_file_lines `{PyStr} (lines : list (option value))
    (output_filename : string) (keywordfilter : option KeywordFilter.t)
    : list row * list (option exn) :=
  match lines with
  | [] => ([], [])
  | line :: rest =>
      let '(written, reported) :=
        match line with
        | None => ([], [None])
        | Some tweet =>
            match process_tweet tweet output_filename keywordfilter with
            | (written, Ok _) => (written, [])
            | (written, Err e) => (written, [Some e])
            end
        end in
      let '(more, reported') :=
        process_file_lines rest output_filename keywordfilter in
      (written ++ more, reported ++ reported')
  end.

(** The columns of the tweets file under a filter. *)
Definition tweet_columns (keyword_flag : option string) : list string :=
  match keyword_flag with
  | Some f => if flag_truthy keyword_flag then FIELDNAMES ++ [f] else FIELDNAMES
  | None => FIELDNAMES
  end.






(** The keys of a tweet row: the schema, and the flag column when the
    rule names one that is not a schema key. *)
Definition record_columns (keyword_flag : option string) : list string :=
  match keyword_flag with
  | Some f =>
      if flag_truthy keyword_flag && negb (existsb (String.eqb f) FIELDNAMES)
      then FIELDNAMES ++ [f]
      else FIELDNAMES
  | None => FIELDNAMES
  end.

(** The flag column that [process_tweet] passes on under a filter. *)
Definition flag_of (keywordfilter : option KeywordFilter.t) : option string :=
  match keywordfilter with
  | Some kf => Some (KeywordFilter.flag kf)
  | None => None
  end.


(** A retweet whose embedded tweet has no user. *)
Definition sample_broken_retweet : value :=
  JObj [("id_str", JStr "200"); ("text", JStr "RT the original");
        ("user", JObj [("screen_name", JStr "bob"); ("id_str", JStr "7")]);
        ("retweeted_status", JObj [("id_str", JStr "123")]);
        ("quoted_status", sample_quoted)].








(** A filtering rule without keyword list, as [__init__] builds it from
    filter names it does not know. *)
Definition no_keywords_rule : KeywordFilter.t :=
  KeywordFilter.mk None "contains_keyword" true [].

(** * Properties *)

Section Properties.
Context `{python : PyStr}.

(** ** Exceptions and loops *)

Lemma bind_Ok {A B : Type} (m : res A) (k : A -> res B) (b : B) :
  bind m k = Ok b -> exists a, m = Ok a /\ k a = Ok b.
Proof.
  destruct m as [a | e]; simpl; intro H.
  - exists a; split; [reflexivity | exact H].
  - discriminate H.
Qed.

Ltac bind_inv H :=
  let a := fresh "a" in
  let E := fresh "E" in
  apply bind_Ok in H; destruct H as (a & E & H).

Lemma for_each_invariant {A S : Type} (P : S -> Prop)
    (body : S -> A -> res S) (xs : list A) :
  (forall s x s', In x xs -> P s -> body s x = Ok s' -> P s') ->
  forall s s', P s -> for_each xs s body = Ok s' -> P s'.
Proof.
  induction xs as [| x rest IH]; simpl; intros Hstep s s' Hs Hrun.
  - injection Hrun as <-; exact Hs.
  - bind_inv Hrun.
    apply (IH (fun t y t' Hy => Hstep t y t' (or_intror Hy)) a s'); [| exact Hrun].
    apply (Hstep s x a); auto.
Qed.

Lemma comprehension_length {A B : Type} (f : A -> res B) (xs : list A) :
  forall ys, comprehension f xs = Ok ys -> List.length ys = List.length xs.
Proof.
  induction xs as [| x rest IH]; simpl; intros ys H.
  - injection H as <-; reflexivity.
  - bind_inv H. bind_inv H. injection H as <-. simpl. f_equal. auto.
Qed.

Lemma comprehension_Forall2 {A B : Type} (f : A -> res B) (xs : list A) :
  forall ys, comprehension f xs = Ok ys -> Forall2 (fun x y => f x = Ok y) xs ys.
Proof.
  induction xs as [| x rest IH]; simpl; intros ys H.
  - injection H as <-; constructor.
  - bind_inv H. bind_inv H. injection H as <-. constructor; auto.
Qed.

Lemma comprehension_total {A B : Type} (f : A -> res B) (xs : list A) :
  (forall x, In x xs -> exists y, f x = Ok y) ->
  exists ys, comprehension f xs = Ok ys.
Proof.
  induction xs as [| x rest IH]; simpl; intro H.
  - eexists; reflexivity.
  - destruct (H x (or_introl eq_refl)) as [y Hy].
    destruct IH as [ys Hys]; [intros z Hz; apply H; auto |].
    rewrite Hy, Hys; simpl. eexists; reflexivity.
Qed.

Lemma comprehension_Err {A B : Type} (f : A -> res B) (xs : list A) x e :
  In x xs -> f x = Err e -> exists e', comprehension f xs = Err e'.
Proof.
  induction xs as [| y rest IH]; simpl; [contradiction |].
  intros [-> | Hin] Hf.
  - rewrite Hf. exists e. reflexivity.
  - destruct (f y) as [b | e0]; [| exists e0; reflexivity]. cbn [bind].
    destruct (IH Hin Hf) as [e' ->]. exists e'. reflexivity.
Qed.

(** ** Dictionaries *)

Section DictFacts.
Context {V : Type}.
Implicit Types (d : dict V) (k : string) (v : V).

Lemma lookup_dict_set_same k v d : lookup k (dict_set k v d) = Some v.
Proof.
  induction d as [| [k' v'] rest IH]; simpl.
  - rewrite String.eqb_refl; reflexivity.
  - destruct (String.eqb k k') eqn:E; simpl; rewrite E; auto.
Qed.

Lemma lookup_dict_set_other k k' v d :
  k <> k' -> lookup k (dict_set k' v d) = lookup k d.
Proof.
  intro Hne. induction d as [| [k0 v0] rest IH]; simpl.
  - destruct (String.eqb_spec k k'); [contradiction | reflexivity].
  - destruct (String.eqb_spec k' k0) as [-> | Hk]; simpl.
    + destruct (String.eqb_spec k k0); [contradiction | reflexivity].
    + rewrite IH; reflexivity.
Qed.

Lemma keys_dict_set_bound k v d :
  In k (keys d) -> keys (dict_set k v d) = keys d.
Proof.
  induction d as [| [k' v'] rest IH]; simpl; intro H.
  - contradiction.
  - destruct (String.eqb_spec k k') as [-> | Hk]; simpl.
    + reflexivity.
    + f_equal. apply IH. destruct H as [H | H]; [congruence | exact H].
Qed.

Lemma lookup_in_keys k d : In k (keys d) <-> lookup k d <> None.
Proof.
  induction d as [| [k' v'] rest IH]; simpl.
  - split; [contradiction | congruence].
  - destruct (String.eqb_spec k k') as [-> | Hk].
    + split; [congruence | auto].
    + rewrite <- IH. split; [intros [H | H]; [congruence | exact H] | auto].
Qed.

Lemma lookup_fromkeys_aux ks v : forall d k,
  lookup k (fold_left (fun d k => dict_set k v d) ks d)
  = if existsb (String.eqb k) ks then Some v else lookup k d.
Proof.
  induction ks as [| k0 rest IH]; simpl; intros d k.
  - reflexivity.
  - rewrite IH. destruct (existsb (String.eqb k) rest).
    + rewrite orb_true_r; reflexivity.
    + rewrite orb_false_r. destruct (String.eqb_spec k k0) as [-> | Hk].
      * apply lookup_dict_set_same.
      * apply lookup_dict_set_other; exact Hk.
Qed.

Lemma lookup_fromkeys ks v k :
  In k ks -> lookup k (dict_fromkeys ks v) = Some v.
Proof.
  intro H. unfold dict_fromkeys. rewrite lookup_fromkeys_aux.
  replace (existsb (String.eqb k) ks) with true; [reflexivity |].
  symmetry. apply existsb_exists. exists k. split; [exact H | apply String.eqb_refl].
Qed.

End DictFacts.

(** A loop that stores one computed value per step. *)
Lemma for_each_store {A B V : Type} (g : A -> res B) (h : A -> string)
    (w : B -> V) (xs : list A) :
  forall d d',
    for_each xs d (fun d x => b <- g x ;; Ok (dict_set (h x) (w b) d)) = Ok d' ->
    (Forall (fun x => In (h x) (keys d)) xs -> keys d' = keys d) /\
    (forall k,
        (~ In k (map h xs) /\ lookup k d' = lookup k d) \/
        exists x b, In x xs /\ h x = k /\ g x = Ok b /\ lookup k d' = Some (w b)).
Proof.
  induction xs as [| x rest IH]; simpl; intros d d' H.
  - injection H as <-. split; [reflexivity | left; split; [tauto | reflexivity]].
  - bind_inv H. bind_inv E. injection E as <-.
    destruct (IH _ _ H) as [Hkeys Hlook]. split.
    + intro Hall. inversion Hall as [| ? ? Hx Hrest]; subst.
      rewrite Hkeys.
      * apply keys_dict_set_bound; exact Hx.
      * rewrite keys_dict_set_bound by exact Hx. exact Hrest.
    + intro k. destruct (Hlook k) as [[Hn Hk] | (y & b & Hy & Hh & Hg & Hk)].
      * destruct (string_dec k (h x)) as [-> | Hne].
        -- right. exists x, a0. rewrite Hk, lookup_dict_set_same. auto.
        -- left. split; [intros [Hx | Hx]; [congruence | contradiction] |].
           rewrite Hk. apply lookup_dict_set_other; exact Hne.
      * right. exists y, b. auto.
Qed.

Lemma In_existsb (k : string) (l : list string) :
  In k l <-> existsb (String.eqb k) l = true.
Proof.
  rewrite existsb_exists. split.
  - intro H. exists k. split; [exact H | apply String.eqb_refl].
  - intros (x & Hx & Heq). apply String.eqb_eq in Heq. subst. exact Hx.
Qed.

Lemma disjoint_lists (l1 l2 : list string) :
  forallb (fun k => negb (existsb (String.eqb k) l2)) l1 = true ->
  forall k, In k l1 -> In k l2 -> False.
Proof.
  intros H k H1 H2. rewrite forallb_forall in H. specialize (H k H1).
  apply In_existsb in H2. rewrite H2 in H. discriminate H.
Qed.

Tactic Notation "bind_inv" hyp(H) "as" ident(a) ident(E) :=
  apply bind_Ok in H; destruct H as (a & E & H).

(** ** The entity extractor *)

Lemma if_default_Ok {A : Type} (b : bool) (m : res (list A)) (l : list A) :
  (if b then m else Ok []) = Ok l -> if b then m = Ok l else l = [].
Proof. destruct b; intro H; [exact H | injection H as <-; reflexivity]. Qed.

(** [parse_entity_details] returns the six keys of [ENTITY_FIELDS], in
    order, each holding what its level contributes. *)
Lemma parse_entity_details_fields entities r :
  is_None entities = false ->
  parse_entity_details entities = Ok r ->
  exists urls ids names symbols hashtags media,
    r = [("urls", urls); ("user_id_mentions", ids);
         ("user_screenname_mentions", names); ("symbols", symbols);
         ("hashtags", hashtags); ("media", media)] /\
    level_field entities "urls" "expanded_url" urls /\
    level_field entities "user_mentions" "id_str" ids /\
    level_field entities "user_mentions" "screen_name" names /\
    level_field entities "symbols" "text" symbols /\
    level_field entities "hashtags" "text" hashtags /\
    level_field entities "media" "media_url" media.
Proof.
  intros Hn H. unfold parse_entity_details in H. rewrite Hn in H.
  bind_inv H as urls Eurls. bind_inv H as some_urls Furls.
  bind_inv H as url_links Lurls. apply if_default_Ok in Lurls.
  bind_inv H as media Emedia. bind_inv H as some_media Fmedia.
  bind_inv H as media_links Lmedia. apply if_default_Ok in Lmedia.
  bind_inv H as hashtags Ehash. bind_inv H as some_hash Fhash.
  bind_inv H as record1 Lhash.
  bind_inv H as mentions Ement. bind_inv H as some_ment Fment.
  bind_inv H as record2 Lment.
  bind_inv H as symbols Esym. bind_inv H as some_sym Fsym.
  assert (Hh : exists texts,
             level_field entities "hashtags" "text" texts /\
             record1 = [("urls", url_links); ("user_id_mentions", []);
                        ("user_screenname_mentions", []); ("symbols", []);
                        ("hashtags", texts); ("media", media_links)]).
  { destruct some_hash.
    - bind_inv Lhash as texts Ltexts. injection Lhash as <-. exists texts.
      split; [exists hashtags, true; auto | reflexivity].
    - injection Lhash as <-. exists [].
      split; [exists hashtags, false; auto | reflexivity]. }
  destruct Hh as (texts & Hhash & ->).
  assert (Hm : exists ids names,
             level_field entities "user_mentions" "id_str" ids /\
             level_field entities "user_mentions" "screen_name" names /\
             record2 = [("urls", url_links); ("user_id_mentions", ids);
                        ("user_screenname_mentions", names); ("symbols", []);
                        ("hashtags", texts); ("media", media_links)]).
  { destruct some_ment.
    - bind_inv Lment as ids Lids. bind_inv Lment as names Lnames.
      injection Lment as <-. exists ids, names.
      split; [exists mentions, true; auto |].
      split; [exists mentions, true; auto | reflexivity].
    - injection Lment as <-. exists [], [].
      split; [exists mentions, false; auto |].
      split; [exists mentions, false; auto | reflexivity]. }
  destruct Hm as (ids & names & Hids & Hnames & ->).
  assert (Hs : exists stexts,
             level_field entities "symbols" "text" stexts /\
             r = [("urls", url_links); ("user_id_mentions", ids);
                  ("user_screenname_mentions", names); ("symbols", stexts);
                  ("hashtags", texts); ("media", media_links)]).
  { destruct some_sym.
    - bind_inv H as stexts Lsym. injection H as <-. exists stexts.
      split; [exists symbols, true; auto | reflexivity].
    - injection H as <-. exists [].
      split; [exists symbols, false; auto | reflexivity]. }
  destruct Hs as (stexts & Hsym & ->).
  exists url_links, ids, names, stexts, texts, media_links.
  split; [reflexivity |].
  split; [exists urls, some_urls; auto |].
  do 4 (split; [assumption |]).
  exists media, some_media; auto.
Qed.

Lemma extend_fields_shape u1 i1 n1 s1 h1 m1 u2 i2 n2 s2 h2 m2 :
  extend_fields
    [("urls", u1); ("user_id_mentions", i1); ("user_screenname_mentions", n1);
     ("symbols", s1); ("hashtags", h1); ("media", m1)]
    [("urls", u2); ("user_id_mentions", i2); ("user_screenname_mentions", n2);
     ("symbols", s2); ("hashtags", h2); ("media", m2)]
  = Ok [("urls", u1 ++ u2); ("user_id_mentions", i1 ++ i2);
        ("user_screenname_mentions", n1 ++ n2); ("symbols", s1 ++ s2);
        ("hashtags", h1 ++ h2); ("media", m1 ++ m2)].
Proof. reflexivity. Qed.

Lemma level_field_absent members kind member l :
  lookup kind members = None ->
  level_field (JObj members) kind member l -> l = [].
Proof.
  intros Habs (source & some & Hget & Hfilled & Hl).
  simpl in Hget. rewrite Habs in Hget. injection Hget as <-.
  injection Hfilled as <-. exact Hl.
Qed.

Lemma level_field_items members kind member items l :
  lookup kind members = Some (JArr items) ->
  level_field (JObj members) kind member l ->
  Forall2 (fun item v => py_index item member = Ok v) items l.
Proof.
  intros Hin (source & some & Hget & Hfilled & Hl).
  simpl in Hget. rewrite Hin in Hget. injection Hget as <-.
  destruct items as [| x rest].
  - injection Hfilled as <-. simpl in Hl. subst l. constructor.
  - injection Hfilled as <-. unfold select in Hl. simpl py_iter in Hl.
    apply comprehension_Forall2. exact Hl.
Qed.

Lemma items_have_filled member source :
  items_have member source = true ->
  exists some l,
    filled source = Ok some /\ (if some then select member source else Ok []) = Ok l.
Proof.
  destruct source as [| | | | | items |]; simpl; try discriminate; intro H.
  - exists false, []. split; reflexivity.
  - destruct (comprehension_total (fun x => py_index x member) items) as [l Hl].
    { intros x Hx. rewrite forallb_forall in H. specialize (H x Hx).
      destruct (py_index x member) as [y |]; [exists y; reflexivity | discriminate]. }
    unfold filled, select. simpl.
    destruct items as [| x rest]; simpl.
    + exists false, []. split; reflexivity.
    + exists true, l. split; [reflexivity | exact Hl].
Qed.
Lemma well_formed_member entities kind member field :
  well_formed_entities entities = true ->
  lookup field field_source = Some (kind, member) ->
  exists source some l,
    py_get entities kind = Ok source /\ filled source = Ok some /\
    (if some then select member source else Ok []) = Ok l.
Proof.
  intros Hwf Hsrc. unfold well_formed_entities in Hwf.
  rewrite forallb_forall in Hwf.
  assert (Hin : In (field, (kind, member)) field_source).
  { clear Hwf. revert Hsrc. generalize field_source.
    induction d as [| [k v] rest IH]; simpl; [discriminate |].
    destruct (String.eqb_spec field k) as [-> | Hne]; intro H.
    - injection H as ->. left; reflexivity.
    - right; auto. }
  specialize (Hwf _ Hin). simpl in Hwf.
  destruct (py_get entities kind) as [source |]; [| discriminate].
  destruct (items_have_filled _ _ Hwf) as (some & l & F & L).
  exists source, some, l. auto.
Qed.

Lemma parse_entity_details_total entities :
  well_formed_entities entities = true ->
  exists r, parse_entity_details entities = Ok r.
Proof.
  intro Hwf. unfold parse_entity_details.
  destruct (is_None entities); [eexists; reflexivity |].
  destruct (well_formed_member _ _ _ "urls" Hwf eq_refl)
    as (urls & some_u & lu & Gu & Fu & Lu).
  destruct (well_formed_member _ _ _ "media" Hwf eq_refl)
    as (media & some_m & lm & Gm & Fm & Lm).
  destruct (well_formed_member _ _ _ "hashtags" Hwf eq_refl)
    as (hashtags & some_h & lh & Gh & Fh & Lh).
  destruct (well_formed_member _ _ _ "user_id_mentions" Hwf eq_refl)
    as (mentions & some_i & li & Gi & Fi & Li).
  destruct (well_formed_member _ _ _ "user_screenname_mentions" Hwf eq_refl)
    as (mentions' & some_n & ln & Gn & Fn & Ln).
  destruct (well_formed_member _ _ _ "symbols" Hwf eq_refl)
    as (symbols & some_s & ls & Gs & Fs & Ls).
  assert (mentions' = mentions) as -> by congruence.
  assert (some_n = some_i) as -> by congruence.
  rewrite Gu; cbn [bind]. rewrite Fu; cbn [bind]. rewrite Lu; cbn [bind].
  rewrite Gm; cbn [bind]. rewrite Fm; cbn [bind]. rewrite Lm; cbn [bind].
  rewrite Gh; cbn [bind]. rewrite Fh; cbn [bind].
  rewrite Gi, Gs.
  destruct some_h; [rewrite Lh |]; cbn [bind]; rewrite Fi; cbn [bind];
    (destruct some_i; [rewrite Li; cbn [bind]; rewrite Ln |]; cbn [bind];
     rewrite Fs; cbn [bind];
     (destruct some_s; [rewrite Ls |]; cbn [bind]; eexists; reflexivity)).
Qed.

Lemma field_source_cases field kind member :
  lookup field field_source = Some (kind, member) ->
  (field, kind, member) = ("urls", "urls", "expanded_url") \/
  (field, kind, member) = ("user_id_mentions", "user_mentions", "id_str") \/
  (field, kind, member)
    = ("user_screenname_mentions", "user_mentions", "screen_name") \/
  (field, kind, member) = ("symbols", "symbols", "text") \/
  (field, kind, member) = ("hashtags", "hashtags", "text") \/
  (field, kind, member) = ("media", "media", "media_url").
Proof.
  unfold field_source, lookup.
  repeat match goal with
         | |- context [String.eqb field ?k] =>
             destruct (String.eqb_spec field k) as [-> | _]
         end;
    intro H; try discriminate H; injection H as <- <-; tauto.
Qed.

(** C3: on a truncated tweet with entity objects at all three levels,
    every field of the bundle returned by [extract_entities] is the
    base-level sequence followed by the sequence of
    [extended_tweet.entities] and then that of
    [extended_tweet.extended_entities]; each level contributes the
    members of its items one for one and in order, and nothing for a
    kind it does not have.  Extraction succeeds whenever the three levels
    are well formed. *)
Theorem extract_entities_merge_order tweet extended e1 e2 e3 :
  py_get tweet "truncated" = Ok (JBool true) ->
  py_get tweet "entities" = Ok (JObj e1) ->
  py_get tweet "extended_tweet" = Ok extended ->
  py_get extended "entities" = Ok (JObj e2) ->
  py_get extended "extended_entities" = Ok (JObj e3) ->
  (well_formed_entities (JObj e1) = true ->
   well_formed_entities (JObj e2) = true ->
   well_formed_entities (JObj e3) = true ->
   exists r, extract_entities tweet = Ok r) /\
  (forall r, extract_entities tweet = Ok r ->
     keys r = ENTITY_FIELDS /\
     forall field kind member,
       lookup field field_source = Some (kind, member) ->
       exists base ext ext2,
         level_field (JObj e1) kind member base /\
         level_field (JObj e2) kind member ext /\
         level_field (JObj e3) kind member ext2 /\
         lookup field r = Some (base ++ ext ++ ext2)) /\
  (forall e kind member l,
     lookup kind e = None -> level_field (JObj e) kind member l -> l = []) /\
  (forall e kind member items l,
     lookup kind e = Some (JArr items) ->
     level_field (JObj e) kind member l ->
     Forall2 (fun item v => py_index item member = Ok v) items l).
Proof.
  intros Htrunc Hent Hext Hent2 Hent3.
  assert (Hrun : extract_entities tweet =
                 (r1 <- parse_entity_details (JObj e1) ;;
                  r2 <- parse_entity_details (JObj e2) ;;
                  r12 <- extend_fields r1 r2 ;;
                  r3 <- parse_entity_details (JObj e3) ;;
                  extend_fields r12 r3)).
  { unfold extract_entities. rewrite Hent. cbn [bind].
    destruct (parse_entity_details (JObj e1)) as [r1 |]; [| reflexivity].
    cbn [bind]. rewrite Htrunc. cbn [bind is_True]. rewrite Hext. cbn [bind].
    rewrite Hent2. cbn [bind is_None].
    destruct (parse_entity_details (JObj e2)) as [r2 |]; [| reflexivity].
    cbn [bind].
    destruct (extend_fields r1 r2) as [r12 |]; [| reflexivity].
    cbn [bind]. rewrite Hent3. reflexivity. }
  split; [| split; [| split]].
  - intros W1 W2 W3. rewrite Hrun.
    destruct (parse_entity_details_total _ W1) as [r1 P1].
    destruct (parse_entity_details_total _ W2) as [r2 P2].
    destruct (parse_entity_details_total _ W3) as [r3 P3].
    rewrite P1, P2, P3. cbn [bind].
    apply parse_entity_details_fields in P1, P2, P3; try reflexivity.
    destruct P1 as (u1 & i1 & n1 & s1 & h1 & m1 & -> & _).
    destruct P2 as (u2 & i2 & n2 & s2 & h2 & m2 & -> & _).
    destruct P3 as (u3 & i3 & n3 & s3 & h3 & m3 & -> & _).
    rewrite extend_fields_shape. cbn [bind]. rewrite extend_fields_shape.
    eexists; reflexivity.
  - intros r Hr. rewrite Hrun in Hr.
    bind_inv Hr as r1 P1. bind_inv Hr as r2 P2. bind_inv Hr as r12 X12.
    bind_inv Hr as r3 P3.
    apply parse_entity_details_fields in P1, P2, P3; try reflexivity.
    destruct P1 as (u1 & i1 & n1 & s1 & h1 & m1 & -> & U1 & I1 & N1 & S1 & H1 & M1).
    destruct P2 as (u2 & i2 & n2 & s2 & h2 & m2 & -> & U2 & I2 & N2 & S2 & H2 & M2).
    destruct P3 as (u3 & i3 & n3 & s3 & h3 & m3 & -> & U3 & I3 & N3 & S3 & H3 & M3).
    rewrite extend_fields_shape in X12. injection X12 as <-.
    rewrite extend_fields_shape in Hr. injection Hr as <-.
    split; [reflexivity |].
    intros field kind member Hsrc.
    apply field_source_cases in Hsrc.
    destruct Hsrc as [E | [E | [E | [E | [E | E]]]]]; injection E as -> -> ->.
    + exists u1, u2, u3. rewrite app_assoc. auto.
    + exists i1, i2, i3. rewrite app_assoc. auto.
    + exists n1, n2, n3. rewrite app_assoc. auto.
    + exists s1, s2, s3. rewrite app_assoc. auto.
    + exists h1, h2, h3. rewrite app_assoc. auto.
    + exists m1, m2, m3. rewrite app_assoc. auto.
  - intros e kind member l. apply level_field_absent.
  - intros e kind member items l. apply level_field_items.
Qed.

Lemma parse_entity_details_shape entities r :
  parse_entity_details entities = Ok r ->
  exists urls ids names symbols hashtags media,
    r = [("urls", urls); ("user_id_mentions", ids);
         ("user_screenname_mentions", names); ("symbols", symbols);
         ("hashtags", hashtags); ("media", media)].
Proof.
  intro H. destruct (is_None entities) eqn:Hn.
  - unfold parse_entity_details in H. rewrite Hn in H. injection H as <-.
    exists [], [], [], [], [], []. reflexivity.
  - destruct (parse_entity_details_fields _ _ Hn H)
      as (u & i & n & s & h & m & -> & _).
    exists u, i, n, s, h, m. reflexivity.
Qed.

Lemma extract_entities_shape tweet r :
  extract_entities tweet = Ok r ->
  exists urls ids names symbols hashtags media,
    r = [("urls", urls); ("user_id_mentions", ids);
         ("user_screenname_mentions", names); ("symbols", symbols);
         ("hashtags", hashtags); ("media", media)].
Proof.
  unfold extract_entities. intro H.
  bind_inv H as entities Hent. bind_inv H as r1 P1. bind_inv H as truncated Htr.
  apply parse_entity_details_shape in P1.
  destruct P1 as (u1 & i1 & n1 & s1 & h1 & m1 & ->).
  destruct (is_True truncated).
  - bind_inv H as extended Hext. bind_inv H as entities2 Hent2.
    bind_inv H as r12 X12. bind_inv H as ext_entities Hent3.
    assert (S12 : exists u i n s h m,
               r12 = [("urls", u); ("user_id_mentions", i);
                      ("user_screenname_mentions", n); ("symbols", s);
                      ("hashtags", h); ("media", m)]).
    { destruct (is_None entities2).
      - injection X12 as <-. do 6 eexists; reflexivity.
      - bind_inv X12 as r2 P2. apply parse_entity_details_shape in P2.
        destruct P2 as (u2 & i2 & n2 & s2 & h2 & m2 & ->).
        rewrite extend_fields_shape in X12. injection X12 as <-.
        do 6 eexists; reflexivity. }
    destruct S12 as (u & i & n & s & h & m & ->).
    destruct (is_None ext_entities).
    + injection H as <-. do 6 eexists; reflexivity.
    + bind_inv H as r3 P3. apply parse_entity_details_shape in P3.
      destruct P3 as (u3 & i3 & n3 & s3 & h3 & m3 & ->).
      rewrite extend_fields_shape in H. injection H as <-.
      do 6 eexists; reflexivity.
  - injection H as <-. do 6 eexists; reflexivity.
Qed.

(** ** The flattener *)

(** The loop over [TWEET_REF_FIELDS], step by step. *)
Lemma reference_loop tweet (rec record : dict value) (refs : list value) :
  for_each TWEET_REF_FIELDS (rec, [])
    (fun '(record, record_refs) field =>
       ref <- py_get tweet field ;;
       if is_None ref then Ok (record, record_refs)
       else id <- py_get ref "id_str" ;;
            Ok (dict_set field id record, record_refs ++ [ref]))
  = Ok (record, refs) ->
  exists rt qt rec',
    py_get tweet "retweeted_status" = Ok rt /\
    py_get tweet "quoted_status" = Ok qt /\
    refs = (if is_None rt then [] else [rt]) ++ (if is_None qt then [] else [qt]) /\
    (if is_None rt then rec' = rec
     else exists id, py_get rt "id_str" = Ok id /\
                     rec' = dict_set "retweeted_status" id rec) /\
    (if is_None qt then record = rec'
     else exists id, py_get qt "id_str" = Ok id /\
                     record = dict_set "quoted_status" id rec').
Proof.
  unfold TWEET_REF_FIELDS. cbn [for_each]. intro H.
  bind_inv H as st1 H1. destruct st1 as [rec1 refs1].
  bind_inv H as st2 H2. injection H as ->.
  bind_inv H1 as rt Hrt. bind_inv H2 as qt Hqt.
  exists rt, qt, rec1. split; [exact Hrt |]. split; [exact Hqt |].
  destruct (is_None rt).
  - injection H1 as <- <-.
    destruct (is_None qt).
    + injection H2 as <- <-. auto.
    + bind_inv H2 as id Hid. injection H2 as <- <-. eauto.
  - bind_inv H1 as id1 Hid1. injection H1 as <- <-.
    destruct (is_None qt).
    + injection H2 as <- <-. eauto 6.
    + bind_inv H2 as id Hid. injection H2 as <- <-. eauto 8.
Qed.

Lemma schema_basic_entity k : In k BASIC_FIELDS -> In k ENTITY_FIELDS -> False.
Proof. apply disjoint_lists. reflexivity. Qed.

Lemma schema_basic_ref k : In k BASIC_FIELDS -> In k TWEET_REF_FIELDS -> False.
Proof. apply disjoint_lists. reflexivity. Qed.

Lemma schema_entity_ref k : In k ENTITY_FIELDS -> In k TWEET_REF_FIELDS -> False.
Proof. apply disjoint_lists. reflexivity. Qed.

Lemma schema_entity_basic_text k : In k ENTITY_FIELDS -> k <> "text".
Proof. intros H ->. revert H. apply schema_basic_entity. apply In_existsb. reflexivity. Qed.

Lemma not_In_existsb (k : string) (l : list string) :
  existsb (String.eqb k) l = false -> ~ In k l.
Proof. intros H Hin. apply In_existsb in Hin. congruence. Qed.

Lemma Forall_In_keys (l : list string) (d : dict value) :
  forallb (fun k => existsb (String.eqb k) (keys d)) l = true ->
  Forall (fun x => In x (keys d)) l.
Proof.
  intro H. apply Forall_forall. intros x Hx.
  rewrite forallb_forall in H. apply In_existsb. auto.
Qed.

(** What [record_tweet] returns, key by key. *)
Lemma record_tweet_inv tweet record refs :
  record_tweet tweet = Ok (record, refs) ->
  exists truncated entities rt qt,
    py_get tweet "truncated" = Ok truncated /\
    extract_entities tweet = Ok entities /\
    py_get tweet "retweeted_status" = Ok rt /\
    py_get tweet "quoted_status" = Ok qt /\
    refs = (if is_None rt then [] else [rt]) ++ (if is_None qt then [] else [qt]) /\
    keys record = FIELDNAMES /\
    (forall field, In field BASIC_FIELDS -> field <> "text" ->
       exists v, py_get tweet field = Ok v /\ lookup field record = Some v) /\
    (if is_True truncated
     then exists extended full_text,
         py_get tweet "extended_tweet" = Ok extended /\
         py_get extended "full_text" = Ok full_text /\
         lookup "text" record = Some full_text
     else exists v, py_get tweet "text" = Ok v /\ lookup "text" record = Some v) /\
    (forall field, In field ENTITY_FIELDS ->
       exists l, lookup field entities = Some l /\
                 lookup field record = Some (JArr l)) /\
    (if is_None rt then lookup "retweeted_status" record = Some JNull
     else exists id, py_get rt "id_str" = Ok id /\
                     lookup "retweeted_status" record = Some id) /\
    (if is_None qt then lookup "quoted_status" record = Some JNull
     else exists id, py_get qt "id_str" = Ok id /\
                     lookup "quoted_status" record = Some id) /\
    lookup "user.id_str" record = Some JNull.
Proof.
  unfold record_tweet. intro H.
  bind_inv H as rec1 L1. bind_inv H as truncated Htr. bind_inv H as rec2 L2.
  bind_inv H as entities Hent. bind_inv H as rec3 L3.
  apply reference_loop in H.
  destruct H as (rt & qt & rec4 & Hrt & Hqt & Hrefs & R1 & R2).
  apply (for_each_store (py_get tweet) (fun f => f) (fun v => v)) in L1.
  destruct L1 as [K1 V1].
  apply (for_each_store (dict_getitem entities) (fun f => f) JArr) in L3.
  destruct L3 as [K3 V3].
  (* the text override *)
  assert (T2 : keys rec2 = keys rec1 /\
               (forall k, k <> "text" -> lookup k rec2 = lookup k rec1) /\
               (if is_True truncated
                then exists extended full_text,
                    py_get tweet "extended_tweet" = Ok extended /\
                    py_get extended "full_text" = Ok full_text /\
                    lookup "text" rec2 = Some full_text
                else rec2 = rec1)).
  { destruct (is_True truncated).
    - bind_inv L2 as extended Hext. bind_inv L2 as full_text Hft.
      injection L2 as <-. split; [| split].
      + apply keys_dict_set_bound. rewrite K1.
        * apply In_existsb; reflexivity.
        * apply Forall_In_keys; reflexivity.
      + intros k Hk. apply lookup_dict_set_other; exact Hk.
      + exists extended, full_text. rewrite lookup_dict_set_same. auto.
    - injection L2 as <-. auto. }
  destruct T2 as (K2 & U2 & T2).
  rewrite K1 in K2 by (apply Forall_In_keys; reflexivity).
  rewrite K2 in K3.
  specialize (K3 (Forall_In_keys ENTITY_FIELDS (dict_fromkeys FIELDNAMES JNull) eq_refl)).
  assert (K4 : keys rec4 = FIELDNAMES).
  { destruct (is_None rt).
    - subst rec4. rewrite K3. reflexivity.
    - destruct R1 as (id & _ & ->). rewrite keys_dict_set_bound.
      + rewrite K3; reflexivity.
      + rewrite K3. apply In_existsb; reflexivity. }
  assert (K5 : keys record = FIELDNAMES).
  { destruct (is_None qt).
    - subst record. exact K4.
    - destruct R2 as (id & _ & ->). rewrite keys_dict_set_bound.
      + exact K4.
      + rewrite K4. apply In_existsb; reflexivity. }
  (* keys that the reference loop leaves alone *)
  assert (U5 : forall k, ~ In k TWEET_REF_FIELDS -> lookup k record = lookup k rec3).
  { intros k Hk.
    assert (k <> "retweeted_status") by (intros ->; apply Hk; simpl; auto).
    assert (k <> "quoted_status") by (intros ->; apply Hk; simpl; auto).
    transitivity (lookup k rec4).
    - destruct (is_None qt).
      + subst record; reflexivity.
      + destruct R2 as (id & _ & ->). apply lookup_dict_set_other; assumption.
    - destruct (is_None rt).
      + subst rec4; reflexivity.
      + destruct R1 as (id & _ & ->). apply lookup_dict_set_other; assumption. }
  (* keys that the entity loop leaves alone *)
  assert (U3 : forall k, ~ In k ENTITY_FIELDS -> lookup k rec3 = lookup k rec2).
  { intros k Hk. destruct (V3 k) as [[_ E] | (x & b & Hx & <- & _)].
    - exact E.
    - contradiction. }
  assert (U1 : forall k, ~ In k BASIC_FIELDS ->
                         lookup k rec1 = lookup k (dict_fromkeys FIELDNAMES JNull)).
  { intros k Hk. destruct (V1 k) as [[_ E] | (x & b & Hx & <- & _)].
    - exact E.
    - contradiction. }
  exists truncated, entities, rt, qt.
  do 5 (split; [assumption |]). split; [exact K5 |].
  split; [| split; [| split; [| split; [| split]]]].
  - intros field Hb Hnt.
    rewrite U5 by (intro; eapply schema_basic_ref; eauto).
    rewrite U3 by (intro; eapply schema_basic_entity; eauto).
    rewrite U2 by exact Hnt.
    destruct (V1 field) as [[Hn _] | (x & b & Hx & <- & Hg & E)].
    + exfalso. apply Hn. rewrite map_id. exact Hb.
    + exists b. auto.
  - rewrite U5 by (apply not_In_existsb; reflexivity).
    rewrite U3 by (apply not_In_existsb; reflexivity).
    destruct (is_True truncated); [exact T2 |]. subst rec2.
    destruct (V1 "text") as [[Hn _] | (x & b & Hx & <- & Hg & E)].
    + exfalso. apply Hn. rewrite map_id. apply In_existsb; reflexivity.
    + exists b. auto.
  - intros field He.
    rewrite U5 by (intro; eapply schema_entity_ref; eauto).
    destruct (V3 field) as [[Hn _] | (x & b & Hx & <- & Hg & E)].
    + exfalso. apply Hn. rewrite map_id. exact He.
    + exists b. split; [| exact E]. unfold dict_getitem in Hg.
      destruct (lookup x entities); [injection Hg as ->; reflexivity | discriminate].
  - assert (B : lookup "retweeted_status" rec3 = Some JNull).
    { rewrite U3 by (apply not_In_existsb; reflexivity).
      rewrite U2 by discriminate.
      rewrite U1 by (apply not_In_existsb; reflexivity).
      reflexivity. }
    assert (Q : lookup "retweeted_status" record = lookup "retweeted_status" rec4).
    { destruct (is_None qt).
      - subst record; reflexivity.
      - destruct R2 as (id & _ & ->). apply lookup_dict_set_other; discriminate. }
    rewrite Q. destruct (is_None rt).
    + subst rec4. exact B.
    + destruct R1 as (id & Hid & ->). exists id. rewrite lookup_dict_set_same. auto.
  - assert (B : lookup "quoted_status" rec4 = Some JNull).
    { transitivity (lookup "quoted_status" rec3).
      - destruct (is_None rt).
        + subst rec4; reflexivity.
        + destruct R1 as (id & _ & ->). apply lookup_dict_set_other; discriminate.
      - rewrite U3 by (apply not_In_existsb; reflexivity).
        rewrite U2 by discriminate.
        rewrite U1 by (apply not_In_existsb; reflexivity).
        reflexivity. }
    destruct (is_None qt).
    + subst record. exact B.
    + destruct R2 as (id & Hid & ->). exists id. rewrite lookup_dict_set_same. auto.
  - rewrite U5 by (apply not_In_existsb; reflexivity).
    rewrite U3 by (apply not_In_existsb; reflexivity).
    rewrite U2 by discriminate.
    rewrite U1 by (apply not_In_existsb; reflexivity).
    reflexivity.
Qed.

Lemma is_True_spec v : is_True v = true <-> v = JBool true.
Proof.
  split.
  - destruct v as [| [|] | | | | |]; simpl; intro H; congruence.
  - intros ->. reflexivity.
Qed.

(** C1: the record returned by [record_tweet] has exactly the keys of
    [FIELDNAMES], in that order, whatever the tweet holds.  A scalar or
    reference field that the tweet lacks is stored as an explicit null
    (the text of a truncated tweet comes from the extended container
    instead); the entity fields always hold a list; [user.id_str] is null
    until the driver fills it. *)
Theorem record_tweet_schema tweet record refs :
  record_tweet tweet = Ok (record, refs) ->
  keys record = FIELDNAMES /\
  (forall field, In field FIELDNAMES <-> lookup field record <> None) /\
  (forall field,
     In field (BASIC_FIELDS ++ TWEET_REF_FIELDS) ->
     py_get tweet field = Ok JNull ->
     (field = "text" -> py_get tweet "truncated" <> Ok (JBool true)) ->
     lookup field record = Some JNull) /\
  (forall field,
     In field ENTITY_FIELDS -> exists l, lookup field record = Some (JArr l)) /\
  lookup "user.id_str" record = Some JNull.
Proof.
  intro H. apply record_tweet_inv in H.
  destruct H as (truncated & entities & rt & qt & Htr & _ & Hrt & Hqt & _
                 & K & B & T & E & R & Q & U).
  split; [exact K |]. split; [| split; [| split; [| exact U]]].
  - intro field. rewrite <- K. apply lookup_in_keys.
  - intros field Hin Hnull Htext. apply in_app_or in Hin.
    destruct Hin as [Hb | Hr].
    + destruct (string_dec field "text") as [-> | Hne].
      * destruct (is_True truncated) eqn:Ht.
        -- apply is_True_spec in Ht. subst truncated. exfalso.
           apply (Htext eq_refl). exact Htr.
        -- destruct T as (v & Hv & Hl). congruence.
      * destruct (B field Hb Hne) as (v & Hv & Hl). congruence.
    + simpl in Hr. destruct Hr as [<- | [<- | []]].
      * rewrite Hnull in Hrt. injection Hrt as <-. exact R.
      * rewrite Hnull in Hqt. injection Hqt as <-. exact Q.
  - intros field He. destruct (E field He) as (l & _ & Hl). eauto.
Qed.

(** ** The keyword classifier *)

Lemma existsb_id_true (bs : list bool) :
  existsb (fun b => b) bs = true <-> In true bs.
Proof.
  rewrite existsb_exists. split.
  - intros (b & Hb & ->). exact Hb.
  - intro H. exists true. auto.
Qed.

Lemma Forall2_In_r {A B : Type} (R : A -> B -> Prop) xs ys (y : B) :
  Forall2 R xs ys -> In y ys -> exists x : A, In x xs /\ R x y.
Proof.
  induction 1 as [| x0 y0 xs ys HR _ IH]; simpl; [contradiction |].
  intros [<- | Hin].
  - exists x0. auto.
  - destruct (IH Hin) as (x & Hx & Hxy). exists x. auto.
Qed.

Lemma Forall2_In_l {A B : Type} (R : A -> B -> Prop) xs ys (x : A) :
  Forall2 R xs ys -> In x xs -> exists y : B, In y ys /\ R x y.
Proof.
  induction 1 as [| x0 y0 xs ys HR _ IH]; simpl; [contradiction |].
  intros [<- | Hin].
  - exists y0. auto.
  - destruct (IH Hin) as (y & Hy & Hxy). exists y. auto.
Qed.

(** [check_tweet] answers true exactly when one of the enabled checks
    does, provided all of them return. *)
Lemma check_tweet_any kf tweet has_keyword :
  KeywordFilter.check_tweet kf tweet = Ok has_keyword ->
  (has_keyword = true <->
   exists field m,
     lookup field (KeywordFilter.filters kf) = Some m /\
     KeywordFilter.call kf m tweet = Ok true).
Proof.
  unfold KeywordFilter.check_tweet. intro H.
  bind_inv H as results Hres. injection H as <-.
  apply comprehension_Forall2 in Hres.
  rewrite existsb_id_true. split.
  - intro Hin. destruct (Forall2_In_r _ _ _ _ Hres Hin) as (field & _ & Hf).
    bind_inv Hf as m Hm. exists field, m. split; [| exact Hf].
    unfold dict_getitem in Hm.
    destruct (lookup field (KeywordFilter.filters kf));
      [injection Hm as ->; reflexivity | discriminate].
  - intros (field & m & Hm & Hcall).
    assert (Hk : In field (keys (KeywordFilter.filters kf))).
    { apply lookup_in_keys. congruence. }
    destruct (Forall2_In_l _ _ _ _ Hres Hk) as (b & Hb & Hf).
    unfold dict_getitem in Hf. rewrite Hm in Hf. cbn [bind] in Hf.
    congruence.
Qed.

(** An enabled check that raises makes [check_tweet] raise. *)
Lemma raising_check kf tweet field m e :
  lookup field (KeywordFilter.filters kf) = Some m ->
  KeywordFilter.call kf m tweet = Err e ->
  exists e', KeywordFilter.check_tweet kf tweet = Err e'.
Proof.
  intros Hm Hcall. unfold KeywordFilter.check_tweet.
  destruct (comprehension_Err
              (fun field =>
                 m <- dict_getitem (KeywordFilter.filters kf) field ;;
                 KeywordFilter.call kf m tweet)
              (keys (KeywordFilter.filters kf)) field e) as [e' ->].
  - apply lookup_in_keys. congruence.
  - unfold dict_getitem. rewrite Hm. exact Hcall.
  - exists e'. reflexivity.
Qed.

(** C2, as the code has it: without a rule every tweet is retained.
    With a rule, once the enabled checks have all returned: a rule that
    does not filter retains; a filtering rule retains a tweet some enabled
    check matches; a filtering rule with a keyword list drops, writing
    nothing, a tweet none matches; a rule whose keyword list is [None]
    retains.  When an enabled check raises, [decide_write] raises and
    nothing is written, whatever the flag. *)
Theorem decide_write_policy kf tweet :
  (forall t, write_decision t None = Ok (true, None)) /\
  (forall has_keyword,
     KeywordFilter.check_tweet kf tweet = Ok has_keyword ->
     (KeywordFilter.do_filter kf = false ->
      KeywordFilter.decide_write kf tweet = Ok true) /\
     (KeywordFilter.do_filter kf = true ->
      (exists field m,
         lookup field (KeywordFilter.filters kf) = Some m /\
         KeywordFilter.call kf m tweet = Ok true) ->
      KeywordFilter.decide_write kf tweet = Ok true) /\
     (KeywordFilter.do_filter kf = true ->
      KeywordFilter.keywords kf <> None ->
      ~ (exists field m,
           lookup field (KeywordFilter.filters kf) = Some m /\
           KeywordFilter.call kf m tweet = Ok true) ->
      KeywordFilter.decide_write kf tweet = Ok false /\
      forall output_file,
        process_tweet tweet output_file (Some kf) = ([], Ok tt)) /\
     (KeywordFilter.keywords kf = None ->
      KeywordFilter.decide_write kf tweet = Ok true) /\
     (exists write_record,
        KeywordFilter.decide_write kf tweet = Ok write_record /\
        write_decision tweet (Some kf)
        = Ok (write_record, Some (KeywordFilter.flag kf)))) /\
  (forall field m e,
     lookup field (KeywordFilter.filters kf) = Some m ->
     KeywordFilter.call kf m tweet = Err e ->
     exists e',
       KeywordFilter.decide_write kf tweet = Err e' /\
       forall output_file,
         process_tweet tweet output_file (Some kf) = ([], Err e')).
Proof.
  split; [reflexivity |]. split.
  - intros has_keyword Hcheck.
    pose proof (check_tweet_any _ _ _ Hcheck) as Hany.
    assert (Hdw : KeywordFilter.decide_write kf tweet =
                  Ok (match KeywordFilter.keywords kf with
                      | None => true
                      | Some _ => false
                      end
                      || Bool.eqb (KeywordFilter.do_filter kf) false
                      || (KeywordFilter.do_filter kf && has_keyword))).
    { unfold KeywordFilter.decide_write. rewrite Hcheck. reflexivity. }
    split; [| split; [| split; [| split]]].
    + intro Hf. rewrite Hdw, Hf. simpl. rewrite orb_true_r. reflexivity.
    + intros Hf Hm. apply Hany in Hm. rewrite Hdw, Hf, Hm. simpl.
      apply f_equal, orb_true_r.
    + intros Hf Hk Hm.
      assert (has_keyword = false) as ->.
      { destruct has_keyword; [| reflexivity]. exfalso. apply Hm, Hany. reflexivity. }
      assert (Hd : KeywordFilter.decide_write kf tweet = Ok false).
      { rewrite Hdw, Hf. destruct (KeywordFilter.keywords kf); [reflexivity | congruence]. }
      split; [exact Hd |]. intro output_file.
      unfold process_tweet. cbn [process_tweet_aux].
      unfold write_decision. rewrite Hd. reflexivity.
    + intro Hk. rewrite Hdw, Hk. reflexivity.
    + eexists. split; [exact Hdw |]. unfold write_decision. rewrite Hdw. reflexivity.
  - intros field m e Hm Hcall.
    destruct (raising_check _ _ _ _ _ Hm Hcall) as [e' Hc].
    assert (Hd : KeywordFilter.decide_write kf tweet = Err e').
    { unfold KeywordFilter.decide_write. rewrite Hc. reflexivity. }
    exists e'. split; [exact Hd |]. intro output_file.
    unfold process_tweet. cbn [process_tweet_aux]. unfold write_decision.
    rewrite Hd. reflexivity.
Qed.


Lemma lower_ascii_not_upper c : is_upper (lower_ascii c) = false.
Proof. destruct c as [[] [] [] [] [] [] [] []]; reflexivity. Qed.

Lemma ascii_lower_no_upper s : has_upper (ascii_lower s) = false.
Proof.
  induction s as [| c rest IH]; simpl; [reflexivity |].
  rewrite lower_ascii_not_upper, IH. reflexivity.
Qed.





(** C6, as the code has it: [check_author] removes the spaces of each
    keyword, not of the screen name, and compares the result with the
    screen name exactly; with only this check enabled in a filtering
    rule, the tweet is retained exactly when it succeeds. *)
Theorem check_author_strips_keywords kf tweet terms user author :
  KeywordFilter.keywords kf = Some terms ->
  py_index tweet "user" = Ok user ->
  py_index user "screen_name" = Ok (JStr author) ->
  (KeywordFilter.check_author kf tweet = Ok true <->
   exists term, In term terms /\ remove_spaces term = author) /\
  (KeywordFilter.filters kf = [("author", KeywordFilter.CheckAuthor)] ->
   KeywordFilter.do_filter kf = true ->
   KeywordFilter.decide_write kf tweet = KeywordFilter.check_author kf tweet).
Proof.
  intros Hk Huser Hname.
  assert (Hrun : KeywordFilter.check_author kf tweet
                 = Ok (existsb (fun term => String.eqb (remove_spaces term) author)
                         terms)).
  { unfold KeywordFilter.check_author. rewrite Huser. cbn [bind].
    rewrite Hname. cbn [bind]. unfold KeywordFilter.iter_keywords.
    rewrite Hk. reflexivity. }
  split.
  - rewrite Hrun. split.
    + intro H. injection H as H. apply existsb_exists in H.
      destruct H as (term & Hin & Heq). apply String.eqb_eq in Heq. eauto.
    + intros (term & Hin & Heq). f_equal. apply existsb_exists.
      exists term. split; [exact Hin | apply String.eqb_eq; exact Heq].
  - intros Hf Hd. unfold KeywordFilter.decide_write, KeywordFilter.check_tweet.
    rewrite Hf, Hd, Hk. simpl. rewrite Hrun. simpl.
    rewrite orb_false_r. reflexivity.
Qed.

(** C8, as the code has it: [__init__] never raises; a name it does not
    know is left out of the filter table, which keeps the known names
    among those requested, in the order author, text, entities, and
    holds all three when none is requested. *)
Theorem init_ignores_unknown_names keywords flag do_filter filters :
  KeywordFilter.init keywords flag do_filter filters
  = Ok (KeywordFilter.mk keywords flag do_filter
          (match filters with
           | Some ((_ :: _) as names) => known_filters names
           | _ => KeywordFilter.FILTERS
           end)).
Proof.
  unfold KeywordFilter.init.
  destruct filters as [[| name rest] |]; try reflexivity.
  unfold known_filters, KeywordFilter.FILTERS.
  cbn [keys map fst for_each filter].
  destruct (existsb (String.eqb "author") (name :: rest));
    destruct (existsb (String.eqb "text") (name :: rest));
    destruct (existsb (String.eqb "entities") (name :: rest));
    reflexivity.
Qed.

(** C9: when [entities] is a non-empty object without [hashtags] or
    without [user_mentions], [check_entities] raises, because it iterates
    the missing member; [parse_entity_details] gives the missing kinds an
    empty list, and returns whenever the members that are present are
    well formed. *)
Theorem check_entities_needs_both_members kf tweet e :
  py_get tweet "entities" = Ok (JObj e) ->
  e <> [] ->
  lookup "hashtags" e = None \/ lookup "user_mentions" e = None ->
  (exists err, KeywordFilter.check_entities kf tweet = Err err) /\
  (lookup "hashtags" e = None ->
   KeywordFilter.check_entities kf tweet = Err TypeError) /\
  (forall r,
     parse_entity_details (JObj e) = Ok r ->
     (lookup "hashtags" e = None -> lookup "hashtags" r = Some []) /\
     (lookup "user_mentions" e = None ->
      lookup "user_id_mentions" r = Some [] /\
      lookup "user_screenname_mentions" r = Some [])) /\
  (well_formed_entities (JObj e) = true ->
   exists r, parse_entity_details (JObj e) = Ok r).
Proof.
  intros Hent Hne Habs.
  assert (Htruthy : py_truthy (JObj e) = true).
  { destruct e; [contradiction | reflexivity]. }
  assert (Hh : lookup "hashtags" e = None ->
               KeywordFilter.check_entities kf tweet = Err TypeError).
  { intro H. unfold KeywordFilter.check_entities.
    rewrite Hent. cbn [bind]. rewrite Htruthy.
    cbn [py_get]. rewrite H. reflexivity. }
  split; [| split; [exact Hh | split]].
  - destruct Habs as [H | H]; [exists TypeError; auto |].
    unfold KeywordFilter.check_entities.
    rewrite Hent. cbn [bind]. rewrite Htruthy. cbn [py_get bind].
    destruct (KeywordFilter.hashtag_texts _) as [hashtags | err].
    + rewrite H. exists TypeError. reflexivity.
    + exists err. reflexivity.
  - intros r Hr. apply parse_entity_details_fields in Hr; [| reflexivity].
    destruct Hr as (u & i & n & s & h & m & -> & _ & Hi & Hn & _ & Hhash & _).
    split.
    + intro H. rewrite (level_field_absent _ _ _ _ H Hhash). reflexivity.
    + intro H. rewrite (level_field_absent _ _ _ _ H Hi).
      rewrite (level_field_absent _ _ _ _ H Hn). split; reflexivity.
  - apply parse_entity_details_total.
Qed.

(** ** When the flattener returns *)

Lemma for_each_store_total {A B V : Type} (g : A -> res B) (h : A -> string)
    (w : B -> V) (xs : list A) :
  (forall x, In x xs -> exists b, g x = Ok b) ->
  forall d, exists d',
    for_each xs d (fun d x => b <- g x ;; Ok (dict_set (h x) (w b) d)) = Ok d'.
Proof.
  induction xs as [| x rest IH]; simpl; intros Hg d.
  - eexists; reflexivity.
  - destruct (Hg x (or_introl eq_refl)) as [b Hb]. rewrite Hb. cbn [bind].
    apply IH. intros y Hy. apply Hg. right; exact Hy.
Qed.

Lemma py_get_object members k : exists v, py_get (JObj members) k = Ok v.
Proof. simpl. eexists; reflexivity. Qed.

(** [record_tweet] returns on every object whose extended container is
    an object when the tweet is truncated, whose entities the extractor
    accepts, and whose embedded tweets, when present, are objects. *)
Lemma record_tweet_total members entities :
  (py_get (JObj members) "truncated" = Ok (JBool true) ->
   exists ext, py_get (JObj members) "extended_tweet" = Ok (JObj ext)) ->
  extract_entities (JObj members) = Ok entities ->
  (forall field,
     In field TWEET_REF_FIELDS ->
     py_get (JObj members) field = Ok JNull \/
     exists o, py_get (JObj members) field = Ok (JObj o)) ->
  exists record refs, record_tweet (JObj members) = Ok (record, refs).
Proof.
  intros Hext Hent Hrefs. unfold record_tweet.
  destruct (for_each_store_total (py_get (JObj members)) (fun f => f)
              (fun v => v) BASIC_FIELDS
              (fun x _ => py_get_object members x)
              (dict_fromkeys FIELDNAMES JNull)) as [rec1 ->].
  cbn [bind].
  destruct (py_get_object members "truncated") as [truncated Htr].
  rewrite Htr. cbn [bind].
  assert (H2 : exists rec2,
             (if is_True truncated then
                extended <- py_get (JObj members) "extended_tweet" ;;
                full_text <- py_get extended "full_text" ;;
                Ok (dict_set "text" full_text rec1)
              else Ok rec1) = Ok rec2).
  { destruct (is_True truncated) eqn:Ht; [| eexists; reflexivity].
    apply is_True_spec in Ht. subst truncated.
    destruct (Hext Htr) as [ext ->]. cbn [bind].
    destruct (py_get_object ext "full_text") as [ft ->]. eexists; reflexivity. }
  destruct H2 as [rec2 ->]. cbn [bind]. rewrite Hent. cbn [bind].
  destruct (extract_entities_shape _ _ Hent) as (u & i & n & s & h & m & ->).
  destruct (for_each_store_total
              (dict_getitem
                 [("urls", u); ("user_id_mentions", i);
                  ("user_screenname_mentions", n); ("symbols", s);
                  ("hashtags", h); ("media", m)])
              (fun f => f) JArr ENTITY_FIELDS) with (d := rec2) as [rec3 ->].
  { intros x Hx. simpl in Hx.
    repeat destruct Hx as [<- | Hx]; try contradiction; eexists; reflexivity. }
  cbn [bind]. unfold TWEET_REF_FIELDS. cbn [for_each].
  assert (Hstep : forall field acc,
             In field TWEET_REF_FIELDS ->
             exists acc',
               (let '(record, record_refs) := acc in
                fun field =>
                  ref <- py_get (JObj members) field ;;
                  if is_None ref then Ok (record, record_refs)
                  else id <- py_get ref "id_str" ;;
                       Ok (dict_set field id record, record_refs ++ [ref]))
                 field = Ok acc').
  { intros field [record record_refs] Hin.
    destruct (Hrefs field Hin) as [-> | [o ->]]; cbn [bind is_None].
    - eexists; reflexivity.
    - destruct (py_get_object o "id_str") as [id ->]. eexists; reflexivity. }
  destruct (Hstep "retweeted_status" (rec3, []) (or_introl eq_refl)) as [acc1 ->].
  cbn [bind].
  destruct (Hstep "quoted_status" acc1 (or_intror (or_introl eq_refl))) as [[record refs] ->].
  exists record, refs. reflexivity.
Qed.

(** C10: the flattener and the extractor take the truncated branch only
    when [truncated] is the boolean true: with any other value, or none,
    they never look at the extended container and keep the tweet's own
    text.  [check_text] and [check_entities] index [truncated]: they
    raise when it is absent and take the truncated branch on any truthy
    value. *)
Theorem truncated_flag_readings members truncated :
  py_get (JObj members) "truncated" = Ok truncated ->
  (truncated <> JBool true ->
   extract_entities (JObj members)
   = (entities <- py_get (JObj members) "entities" ;;
      parse_entity_details entities) /\
   (forall record refs,
      record_tweet (JObj members) = Ok (record, refs) ->
      exists v, py_get (JObj members) "text" = Ok v /\
                lookup "text" record = Some v) /\
   (lookup "retweeted_status" members = None ->
    lookup "quoted_status" members = None ->
    (exists entities,
       parse_entity_details
         (match lookup "entities" members with Some x => x | None => JNull end)
       = Ok entities) ->
    exists record refs, record_tweet (JObj members) = Ok (record, refs))) /\
  (truncated = JBool true ->
   forall record refs,
     record_tweet (JObj members) = Ok (record, refs) ->
     exists extended full_text,
       py_get (JObj members) "extended_tweet" = Ok extended /\
       py_get extended "full_text" = Ok full_text /\
       lookup "text" record = Some full_text) /\
  (lookup "truncated" members = None ->
   forall kf,
     KeywordFilter.check_text kf (JObj members) = Err (KeyError "truncated") /\
     exists err, KeywordFilter.check_entities kf (JObj members) = Err err) /\
  (lookup "truncated" members = Some truncated ->
   py_truthy truncated = true ->
   forall kf,
     KeywordFilter.check_text kf (JObj members)
     = (extended <- py_index (JObj members) "extended_tweet" ;;
        text <- py_index extended "full_text" ;;
        text <- py_lower text ;;
        terms <- KeywordFilter.iter_keywords kf ;;
        Ok (existsb (fun term => str_in term text) terms)) /\
     (lookup "extended_tweet" members = None ->
      exists err, KeywordFilter.check_entities kf (JObj members) = Err err)).
Proof.
  intro Htr.
  assert (Hext : truncated <> JBool true ->
                 extract_entities (JObj members)
                 = (entities <- py_get (JObj members) "entities" ;;
                    parse_entity_details entities)).
  { intro Hne. unfold extract_entities.
    destruct (py_get (JObj members) "entities") as [entities | err];
      cbn [bind]; [| reflexivity].
    destruct (parse_entity_details entities); cbn [bind]; [| reflexivity].
    rewrite Htr. cbn [bind].
    destruct (is_True truncated) eqn:E; [| reflexivity].
    apply is_True_spec in E. contradiction. }
  split; [| split; [| split]].
  - intro Hne. split; [exact (Hext Hne) |]. split.
    + intros record refs H. apply record_tweet_inv in H.
      destruct H as (tr & _ & _ & _ & Htr' & _ & _ & _ & _ & _ & _ & T & _).
      assert (tr = truncated) as -> by congruence.
      destruct (is_True truncated) eqn:E; [| exact T].
      apply is_True_spec in E. contradiction.
    + intros Hrt Hqt [entities Hp].
      apply (record_tweet_total members entities).
      * intro H. rewrite Htr in H. congruence.
      * rewrite (Hext Hne). exact Hp.
      * intros field [<- | [<- | []]]; left; simpl;
          [rewrite Hrt | rewrite Hqt]; reflexivity.
  - intros -> record refs H. apply record_tweet_inv in H.
    destruct H as (tr & _ & _ & _ & Htr' & _ & _ & _ & _ & _ & _ & T & _).
    assert (tr = JBool true) as -> by congruence. exact T.
  - intros Habs kf. split.
    + unfold KeywordFilter.check_text. simpl. rewrite Habs. reflexivity.
    + unfold KeywordFilter.check_entities.
      destruct (py_get (JObj members) "entities") as [entities | err];
        [| exists err; reflexivity].
      cbn [bind].
      match goal with
      | |- context [bind ?base _] =>
          destruct base as [[hashtags mentions] | err]
      end; [| exists err; reflexivity].
      cbn [bind py_index]. rewrite Habs. eexists; reflexivity.
  - intros Hin Htruthy kf. split.
    + unfold KeywordFilter.check_text. cbn [py_index]. rewrite Hin.
      cbn [bind]. rewrite Htruthy.
      destruct (lookup "extended_tweet" members); reflexivity.
    + intro Hno. unfold KeywordFilter.check_entities.
      destruct (py_get (JObj members) "entities") as [entities | err];
        [| exists err; reflexivity].
      cbn [bind].
      match goal with
      | |- context [bind ?base _] =>
          destruct base as [[hashtags mentions] | err]
      end; [| exists err; reflexivity].
      cbn [bind py_index]. rewrite Hin. cbn [bind]. rewrite Htruthy, Hno.
      eexists; reflexivity.
Qed.

(** ** The driver *)

Lemma and_then_done (first : outcome) : and_then first ([], Ok tt) = first.
Proof.
  destruct first as [written [[] | e]]; simpl; [rewrite app_nil_r |]; reflexivity.
Qed.

Lemma for_refs_ext (f g : value -> outcome) (refs : list value) :
  (forall ref, In ref refs -> f ref = g ref) ->
  for_refs f refs = for_refs g refs.
Proof.
  induction refs as [| ref rest IH]; simpl; intro H; [reflexivity |].
  rewrite (H ref) by (left; reflexivity).
  rewrite IH by (intros r Hr; apply H; right; exact Hr). reflexivity.
Qed.

Lemma depth_member members k v :
  lookup k members = Some v -> depth v < depth (JObj members).
Proof.
  cbn [depth]. induction members as [| [k' v'] rest IH]; simpl; [discriminate |].
  destruct (String.eqb k k').
  - intro H. injection H as ->. lia.
  - intro H. specialize (IH H). lia.
Qed.

Lemma py_get_depth tweet k v :
  py_get tweet k = Ok v -> is_None v = false -> depth v < depth tweet.
Proof.
  destruct tweet as [| | | | | |members]; try discriminate. simpl py_get.
  destruct (lookup k members) as [x |] eqn:E; intros H Hn; injection H as <-.
  - eapply depth_member; exact E.
  - discriminate Hn.
Qed.

(** The embedded tweets that [record_tweet] hands back are nested
    strictly deeper than the tweet. *)
Lemma record_tweet_refs_depth tweet record refs :
  record_tweet tweet = Ok (record, refs) ->
  forall ref, In ref refs -> depth ref < depth tweet.
Proof.
  intros H ref Hin. apply record_tweet_inv in H.
  destruct H as (_ & _ & rt & qt & _ & _ & Hrt & Hqt & -> & _).
  apply in_app_or in Hin. destruct Hin as [Hin | Hin].
  - destruct (is_None rt) eqn:E; [contradiction |].
    destruct Hin as [<- | []]. eapply py_get_depth; eauto.
  - destruct (is_None qt) eqn:E; [contradiction |].
    destruct Hin as [<- | []]. eapply py_get_depth; eauto.
Qed.

Lemma build_records_refs tweet kf keyword_flag record user_record refs :
  build_records tweet kf keyword_flag = Ok (record, user_record, refs) ->
  exists record0, record_tweet tweet = Ok (record0, refs).
Proof.
  unfold build_records. intro H. bind_inv H as flat Hflat.
  destruct flat as [record0 refs0].
  bind_inv H as record1 H1. bind_inv H as urec Hu. bind_inv H as uid Hid.
  injection H as _ _ <-. exists record0. exact Hflat.
Qed.

(** Fuel beyond the nesting depth changes nothing. *)
Lemma process_tweet_aux_fuel output_file kf :
  forall n m tweet,
    depth tweet < n -> depth tweet < m ->
    process_tweet_aux n tweet output_file kf
    = process_tweet_aux m tweet output_file kf.
Proof.
  induction n as [| n IH]; intros m tweet Hn Hm; [lia |].
  destruct m as [| m]; [lia |]. cbn [process_tweet_aux].
  destruct (write_decision tweet kf) as [[write_record keyword_flag] |];
    [| reflexivity].
  destruct write_record; [| reflexivity].
  destruct (build_records tweet kf keyword_flag)
    as [[[record user_record] refs] |] eqn:Hb; [| reflexivity].
  f_equal. apply for_refs_ext. intros ref Hin.
  destruct (build_records_refs _ _ _ _ _ _ Hb) as [record0 Hflat].
  pose proof (record_tweet_refs_depth _ _ _ Hflat ref Hin).
  apply IH; lia.
Qed.

(** [process_tweet] never stops for lack of fuel: one call is the
    decision, the two rows, and the same procedure on every embedded
    tweet in turn. *)
Lemma process_tweet_unfold tweet output_file kf :
  process_tweet tweet output_file kf
  = match write_decision tweet kf with
    | Err e => ([], Err e)
    | Ok (write_record, keyword_flag) =>
        if write_record then
          match build_records tweet kf keyword_flag with
          | Err e => ([], Err e)
          | Ok (record, user_record, refs) =>
              and_then
                ([Row record output_file false keyword_flag;
                  Row user_record output_file true keyword_flag], Ok tt)
                (for_refs (fun ref => process_tweet ref output_file kf) refs)
          end
        else ([], Ok tt)
    end.
Proof.
  unfold process_tweet at 1. cbn [process_tweet_aux].
  destruct (write_decision tweet kf) as [[write_record keyword_flag] |];
    [| reflexivity].
  destruct write_record; [| reflexivity].
  destruct (build_records tweet kf keyword_flag)
    as [[[record user_record] refs] |] eqn:Hb; [| reflexivity].
  f_equal. apply for_refs_ext. intros ref Hin.
  destruct (build_records_refs _ _ _ _ _ _ Hb) as [record0 Hflat].
  pose proof (record_tweet_refs_depth _ _ _ Hflat ref Hin).
  unfold process_tweet. apply process_tweet_aux_fuel; lia.
Qed.

(** C7: when a tweet embeds a retweeted status whose [id_str] is "123",
    the record [record_tweet] returns holds "123" under
    [retweeted_status] and nothing else of the embedded tweet, and the
    embedded object itself comes first in the returned list, followed by
    the quoted status when there is one.  The driver, once the tweet is
    retained and its rows are written, runs [process_tweet] with the same
    filter on the retweeted status and then on the quoted status. *)
Theorem embedded_tweets_handed_back tweet rt :
  py_get tweet "retweeted_status" = Ok (JObj rt) ->
  py_get (JObj rt) "id_str" = Ok (JStr "123") ->
  (forall record refs,
     record_tweet tweet = Ok (record, refs) ->
     lookup "retweeted_status" record = Some (JStr "123") /\
     keys record = FIELDNAMES /\
     exists qt,
       py_get tweet "quoted_status" = Ok qt /\
       refs = JObj rt :: (if is_None qt then [] else [qt])) /\
  (forall output_file kf keyword_flag record user_record refs,
     write_decision tweet kf = Ok (true, keyword_flag) ->
     build_records tweet kf keyword_flag = Ok (record, user_record, refs) ->
     exists qt,
       py_get tweet "quoted_status" = Ok qt /\
       process_tweet tweet output_file kf
       = and_then
           ([Row record output_file false keyword_flag;
             Row user_record output_file true keyword_flag], Ok tt)
           (and_then
              (process_tweet (JObj rt) output_file kf)
              (if is_None qt then ([], Ok tt)
               else process_tweet qt output_file kf))).
Proof.
  intros Hrt Hid.
  assert (Hflat : forall record refs,
             record_tweet tweet = Ok (record, refs) ->
             lookup "retweeted_status" record = Some (JStr "123") /\
             keys record = FIELDNAMES /\
             exists qt,
               py_get tweet "quoted_status" = Ok qt /\
               refs = JObj rt :: (if is_None qt then [] else [qt])).
  { intros record refs H. apply record_tweet_inv in H.
    destruct H as (_ & _ & rt' & qt & _ & _ & Hrt' & Hqt & -> & K & _ & _ & _ & R & _).
    rewrite Hrt in Hrt'. injection Hrt' as <-. cbn [is_None] in *.
    destruct R as (id & Hid' & R). rewrite Hid in Hid'. injection Hid' as <-.
    split; [exact R |]. split; [exact K |]. exists qt. auto. }
  split; [exact Hflat |].
  intros output_file kf keyword_flag record user_record refs Hd Hb.
  destruct (build_records_refs _ _ _ _ _ _ Hb) as [record0 H0].
  destruct (Hflat _ _ H0) as (_ & _ & qt & Hqt & ->).
  exists qt. split; [exact Hqt |].
  rewrite process_tweet_unfold, Hd, Hb. f_equal.
  destruct (is_None qt); cbn [for_refs]; [| rewrite and_then_done]; reflexivity.
Qed.

(** ** Missing containers *)

Lemma basic_loop_total members (d : dict value) :
  exists d',
    for_each BASIC_FIELDS d
      (fun record field =>
         v <- py_get (JObj members) field ;; Ok (dict_set field v record))
    = Ok d'.
Proof.
  apply (for_each_store_total (py_get (JObj members)) (fun f => f) (fun v => v)).
  intros x _. apply py_get_object.
Qed.

(** A truncated tweet without extended container makes [record_tweet]
    raise. *)
Lemma record_tweet_without_extended members :
  lookup "truncated" members = Some (JBool true) ->
  lookup "extended_tweet" members = None ->
  record_tweet (JObj members) = Err AttributeError.
Proof.
  intros Htr Hext. unfold record_tweet.
  destruct (basic_loop_total members (dict_fromkeys FIELDNAMES JNull)) as [rec1 ->].
  cbn [bind py_get]. rewrite Htr, Hext. reflexivity.
Qed.

(** A tweet without user makes [record_user] raise. *)
Lemma record_user_without_user members :
  lookup "user" members = None ->
  record_user (JObj members) = Err AttributeError.
Proof.
  intro Huser. unfold record_user. cbn [py_get bind]. rewrite Huser. reflexivity.
Qed.

(** With a user object, [record_user] returns, whatever else is missing. *)
Lemma record_user_total members user :
  lookup "user" members = Some (JObj user) ->
  exists user_record,
    record_user (JObj members) = Ok user_record /\
    keys user_record = USER_FIELDS_OUT ++ ["tweet.created_at"].
Proof.
  intro Huser. unfold record_user. cbn [py_get bind]. rewrite Huser.
  match goal with
  | |- exists r, for_each _ ?d _ = Ok r /\ _ => set (d0 := d)
  end.
  destruct (for_each_store_total (py_get (JObj user)) user_field_out
              (fun v => v) USER_FIELDS
              (fun x _ => py_get_object user x) d0) as [r Hr].
  exists r. split; [exact Hr |].
  apply for_each_store in Hr. destruct Hr as [K _].
  rewrite K; [reflexivity |].
  apply Forall_forall. intros x Hx. apply In_existsb.
  revert x Hx. apply forallb_forall. reflexivity.
Qed.

(** C4: [record_tweet] raises on a truncated tweet that has no extended
    container, and [record_user] raises on a tweet that has no user. *)
Theorem flattener_raises_without_container :
  record_tweet
    (JObj [("id_str", JStr "3"); ("text", JStr "cut sho"); ("truncated", JBool true);
           ("user", JObj [("screen_name", JStr "bob"); ("id_str", JStr "7")])])
  = Err AttributeError /\
  record_user (JObj [("id_str", JStr "3"); ("text", JStr "no author")])
  = Err AttributeError /\
  process_tweet (JObj [("id_str", JStr "3"); ("text", JStr "no author")]) "out" None
  = ([], Err AttributeError).
Proof. repeat split. Qed.

(** * Further properties *)

(** ** The user snapshot *)

Lemma user_field_out_inj a b : user_field_out a = user_field_out b -> a = b.
Proof. unfold user_field_out. simpl. intro H. injection H as ->. reflexivity. Qed.

Lemma py_get_Ok_object v k x : py_get v k = Ok x -> exists members, v = JObj members.
Proof. destruct v; try discriminate. eexists; reflexivity. Qed.

(** X1: [record_user] returns exactly on the tweets that are objects
    with an object under [user].  The snapshot then has the keys of
    [USER_FIELDS_OUT] followed by [tweet.created_at]; each user field
    holds what the user object has under that name, null when it has
    nothing, and [tweet.created_at] holds the tweet's [created_at]. *)
Theorem record_user_snapshot tweet :
  (forall user_record,
     record_user tweet = Ok user_record ->
     exists members user,
       tweet = JObj members /\
       py_get tweet "user" = Ok (JObj user) /\
       keys user_record = USER_FIELDS_OUT ++ ["tweet.created_at"] /\
       (forall field,
          In field USER_FIELDS ->
          exists v, py_get (JObj user) field = Ok v /\
                    lookup (user_field_out field) user_record = Some v) /\
       (exists v, py_get tweet "created_at" = Ok v /\
                  lookup "tweet.created_at" user_record = Some v)) /\
  (forall members user,
     tweet = JObj members ->
     lookup "user" members = Some (JObj user) ->
     exists user_record, record_user tweet = Ok user_record).
Proof.
  split.
  - intros r H. unfold record_user in H.
    bind_inv H as user Huser. bind_inv H as created Hcreated.
    destruct (py_get_Ok_object _ _ _ Huser) as [members ->].
    apply (for_each_store (py_get user) user_field_out (fun v => v)) in H.
    destruct H as [K V].
    assert (Hobj : exists fields, user = JObj fields).
    { destruct (V (user_field_out "name")) as [[Hn _] | (x & b & _ & _ & Hg & _)].
      - exfalso. apply Hn. apply In_existsb. reflexivity.
      - eapply py_get_Ok_object; exact Hg. }
    destruct Hobj as [fields ->].
    exists members, fields. split; [reflexivity |]. split; [exact Huser |].
    split; [| split].
    + rewrite K; [reflexivity |].
      apply Forall_forall. intros x Hx. apply In_existsb.
      revert x Hx. apply forallb_forall. reflexivity.
    + intros field Hin.
      destruct (V (user_field_out field)) as [[Hn _] | (x & b & _ & Hx & Hg & Hl)].
      * exfalso. apply Hn. apply in_map. exact Hin.
      * apply user_field_out_inj in Hx. subst x. exists b. auto.
    + exists created. split; [exact Hcreated |].
      destruct (V "tweet.created_at") as [[_ Hl] | (x & b & Hin & Hx & _)].
      * rewrite Hl. apply lookup_dict_set_same.
      * exfalso. unfold user_field_out in Hx. simpl in Hx. discriminate Hx.
  - intros members user -> Huser.
    destruct (record_user_total members user Huser) as (r & Hr & _).
    exists r. exact Hr.
Qed.

(** ** Parallel mention lists *)

Lemma select_length member source l :
  select member source = Ok l ->
  exists items, py_iter source = Ok items /\ List.length l = List.length items.
Proof.
  unfold select. intro H. bind_inv H as items Hitems.
  exists items. split; [exact Hitems |].
  eapply comprehension_length; exact H.
Qed.

Lemma level_field_parallel entities kind member1 member2 l1 l2 :
  level_field entities kind member1 l1 ->
  level_field entities kind member2 l2 ->
  List.length l1 = List.length l2.
Proof.
  intros (s1 & b1 & G1 & F1 & L1) (s2 & b2 & G2 & F2 & L2).
  rewrite G1 in G2. injection G2 as <-.
  rewrite F1 in F2. injection F2 as <-.
  destruct b1.
  - apply select_length in L1, L2.
    destruct L1 as (i1 & I1 & E1). destruct L2 as (i2 & I2 & E2).
    congruence.
  - subst. reflexivity.
Qed.

Lemma parse_entity_details_parallel entities r :
  parse_entity_details entities = Ok r ->
  exists urls ids names symbols hashtags media,
    r = [("urls", urls); ("user_id_mentions", ids);
         ("user_screenname_mentions", names); ("symbols", symbols);
         ("hashtags", hashtags); ("media", media)] /\
    List.length ids = List.length names.
Proof.
  intro H. destruct (is_None entities) eqn:Hn.
  - unfold parse_entity_details in H. rewrite Hn in H. injection H as <-.
    exists [], [], [], [], [], []. split; reflexivity.
  - destruct (parse_entity_details_fields _ _ Hn H)
      as (u & i & n & s & h & m & -> & _ & Hi & Hnm & _).
    exists u, i, n, s, h, m. split; [reflexivity |].
    eapply level_field_parallel; eassumption.
Qed.

(** X2: the two mention lists of the bundle are parallel: whatever
    levels were merged, [user_id_mentions] and [user_screenname_mentions]
    have the same length, in the bundle and in the flat record. *)
Theorem mention_lists_parallel tweet :
  (forall r,
     extract_entities tweet = Ok r ->
     exists ids names,
       lookup "user_id_mentions" r = Some ids /\
       lookup "user_screenname_mentions" r = Some names /\
       List.length ids = List.length names) /\
  (forall record refs,
     record_tweet tweet = Ok (record, refs) ->
     exists ids names,
       lookup "user_id_mentions" record = Some (JArr ids) /\
       lookup "user_screenname_mentions" record = Some (JArr names) /\
       List.length ids = List.length names).
Proof.
  assert (Hx : forall r,
             extract_entities tweet = Ok r ->
             exists ids names,
               lookup "user_id_mentions" r = Some ids /\
               lookup "user_screenname_mentions" r = Some names /\
               List.length ids = List.length names).
  { unfold extract_entities. intros r H.
    bind_inv H as entities Hent. bind_inv H as r1 P1. bind_inv H as truncated Htr.
    apply parse_entity_details_parallel in P1.
    destruct P1 as (u1 & i1 & n1 & s1 & h1 & m1 & -> & E1).
    destruct (is_True truncated).
    - bind_inv H as extended Hext. bind_inv H as entities2 Hent2.
      bind_inv H as r12 X12. bind_inv H as ext_entities Hent3.
      assert (S12 : exists u i n s h m,
                 r12 = [("urls", u); ("user_id_mentions", i);
                        ("user_screenname_mentions", n); ("symbols", s);
                        ("hashtags", h); ("media", m)] /\
                 List.length i = List.length n).
      { destruct (is_None entities2).
        - injection X12 as <-. do 6 eexists. split; [reflexivity | exact E1].
        - bind_inv X12 as r2 P2. apply parse_entity_details_parallel in P2.
          destruct P2 as (u2 & i2 & n2 & s2 & h2 & m2 & -> & E2).
          rewrite extend_fields_shape in X12. injection X12 as <-.
          do 6 eexists. split; [reflexivity |].
          rewrite !length_app. congruence. }
      destruct S12 as (u & i & n & s & h & m & -> & E12).
      destruct (is_None ext_entities).
      + injection H as <-. exists i, n. auto.
      + bind_inv H as r3 P3. apply parse_entity_details_parallel in P3.
        destruct P3 as (u3 & i3 & n3 & s3 & h3 & m3 & -> & E3).
        rewrite extend_fields_shape in H. injection H as <-.
        exists (i ++ i3), (n ++ n3). split; [reflexivity |].
        split; [reflexivity |]. rewrite !length_app. congruence.
    - injection H as <-. exists i1, n1. auto. }
  split; [exact Hx |].
  intros record refs H. apply record_tweet_inv in H.
  destruct H as (_ & entities & _ & _ & _ & Hent & _ & _ & _ & _ & _ & _ & E & _).
  destruct (Hx _ Hent) as (ids & names & Hi & Hn & Hlen).
  exists ids, names.
  destruct (E "user_id_mentions") as (l1 & L1 & R1); [apply In_existsb; reflexivity |].
  destruct (E "user_screenname_mentions") as (l2 & L2 & R2);
    [apply In_existsb; reflexivity |].
  rewrite Hi in L1. injection L1 as <-. rewrite Hn in L2. injection L2 as <-.
  auto.
Qed.

(** ** More on the classifier *)


(** X3: [check_tweet] runs every enabled check before it combines the
    answers, so one enabled check that raises makes [check_tweet] and
    [decide_write] raise, whatever the other checks answer, and
    [process_tweet] then writes nothing for the tweet. *)
Theorem one_failing_check_fails_all kf tweet field m e :
  lookup field (KeywordFilter.filters kf) = Some m ->
  KeywordFilter.call kf m tweet = Err e ->
  (exists e', KeywordFilter.check_tweet kf tweet = Err e') /\
  (exists e', KeywordFilter.decide_write kf tweet = Err e') /\
  (forall output_file,
     exists e', process_tweet tweet output_file (Some kf) = ([], Err e')).
Proof.
  intros Hm Hcall.
  assert (Hc : exists e', KeywordFilter.check_tweet kf tweet = Err e').
  { unfold KeywordFilter.check_tweet.
    destruct (comprehension_Err
                (fun field =>
                   m <- dict_getitem (KeywordFilter.filters kf) field ;;
                   KeywordFilter.call kf m tweet)
                (keys (KeywordFilter.filters kf)) field e) as [e' ->].
    - apply lookup_in_keys. congruence.
    - unfold dict_getitem. rewrite Hm. exact Hcall.
    - exists e'. reflexivity. }
  destruct Hc as [e' Hc].
  assert (Hd : KeywordFilter.decide_write kf tweet = Err e').
  { unfold KeywordFilter.decide_write. rewrite Hc. reflexivity. }
  split; [exists e'; exact Hc |]. split; [exists e'; exact Hd |].
  intro output_file. exists e'.
  unfold process_tweet. cbn [process_tweet_aux]. unfold write_decision.
  rewrite Hd. reflexivity.
Qed.












(** ** What the driver writes *)

Lemma fst_and_then (a b : outcome) :
  fst (and_then a b) = fst a ++ fst b \/ fst (and_then a b) = fst a.
Proof.
  destruct a as [w [[] | e]]; simpl; [| right; reflexivity].
  destruct b as [more r]. left. reflexivity.
Qed.

(** A property of traces that holds of nothing written, of the two rows
    of any retained tweet, and of concatenations, holds of everything
    [process_tweet] writes. *)
Lemma process_tweet_aux_trace (P : list row -> Prop) output_file kf :
  P [] ->
  (forall a b, P a -> P b -> P (a ++ b)) ->
  (forall tweet keyword_flag record user_record refs,
     write_decision tweet kf = Ok (true, keyword_flag) ->
     build_records tweet kf keyword_flag = Ok (record, user_record, refs) ->
     P [Row record output_file false keyword_flag;
        Row user_record output_file true keyword_flag]) ->
  forall fuel tweet, P (fst (process_tweet_aux fuel tweet output_file kf)).
Proof.
  intros Hnil Happ Hstep. induction fuel as [| fuel IH]; intro tweet.
  - exact Hnil.
  - cbn [process_tweet_aux].
    destruct (write_decision tweet kf) as [[write_record keyword_flag] |] eqn:Hd;
      [| exact Hnil].
    destruct write_record; [| exact Hnil].
    destruct (build_records tweet kf keyword_flag)
      as [[[record user_record] refs] |] eqn:Hb; [| exact Hnil].
    assert (Hrefs : P (fst (for_refs
                              (fun ref => process_tweet_aux fuel ref output_file kf)
                              refs))).
    { clear Hb. induction refs as [| ref rest IHrefs]; [exact Hnil |].
      cbn [for_refs].
      destruct (fst_and_then
                  (process_tweet_aux fuel ref output_file kf)
                  (for_refs
                     (fun ref => process_tweet_aux fuel ref output_file kf) rest))
        as [-> | ->]; [apply Happ |]; auto. }
    cbn [and_then].
    destruct (for_refs _ refs) as [more r]. cbn [fst] in *.
    apply (Happ [_; _] more); [eapply Hstep; eassumption | exact Hrefs].
Qed.

Lemma process_file_lines_trace (P : list row -> Prop) output_file kf :
  P [] ->
  (forall a b, P a -> P b -> P (a ++ b)) ->
  (forall tweet, P (fst (process_tweet tweet output_file kf))) ->
  forall lines, P (fst (process_file_lines lines output_file kf)).
Proof.
  intros Hnil Happ Hone. induction lines as [| line rest IH]; [exact Hnil |].
  cbn [process_file_lines].
  destruct (process_file_lines rest output_file kf) as [more reported'].
  destruct line as [tweet |].
  - specialize (Hone tweet).
    destruct (process_tweet tweet output_file kf) as [written [[] | e]];
      cbn [fst] in *; apply Happ; assumption.
  - cbn [fst] in *. exact IH.
Qed.

(** What [build_records] puts together. *)
Lemma build_records_inv tweet kf keyword_flag record user_record refs :
  build_records tweet kf keyword_flag = Ok (record, user_record, refs) ->
  exists record0 record1 user_id,
    record_tweet tweet = Ok (record0, refs) /\
    match keyword_flag with
    | Some f =>
        if flag_truthy keyword_flag then
          exists k m, kf = Some k /\
                      KeywordFilter.check_tweet k tweet = Ok m /\
                      record1 = dict_set f (JBool m) record0
        else record1 = record0
    | None => record1 = record0
    end /\
    record_user tweet = Ok user_record /\
    lookup "user.id_str" user_record = Some user_id /\
    record = dict_set "user.id_str" user_id record1.
Proof.
  unfold build_records. intro H. bind_inv H as flat Hflat.
  destruct flat as [record0 refs0].
  bind_inv H as record1 H1. bind_inv H as urec Hu. bind_inv H as uid Hid.
  injection H as <- <- <-.
  exists record0, record1, uid. split; [exact Hflat |].
  split; [| split; [exact Hu | split; [| reflexivity]]].
  - destruct keyword_flag as [f |]; [| injection H1 as <-; reflexivity].
    destruct (flag_truthy (Some f)); [| injection H1 as <-; reflexivity].
    destruct kf as [k |]; [| discriminate].
    bind_inv H1 as m Hm. injection H1 as <-. eauto.
  - unfold dict_getitem in Hid.
    destruct (lookup "user.id_str" urec); [injection Hid as ->; reflexivity | discriminate].
Qed.

Lemma keys_dict_set_new {V : Type} (k : string) (v : V) (d : dict V) :
  ~ In k (keys d) -> keys (dict_set k v d) = keys d ++ [k].
Proof.
  induction d as [| [k' v'] rest IH]; simpl; intro H; [reflexivity |].
  destruct (String.eqb_spec k k') as [-> | Hne].
  - exfalso. apply H. left; reflexivity.
  - simpl. f_equal. apply IH. intro Hin. apply H. right; exact Hin.
Qed.

Lemma Forall_app_2 {A : Type} (P : A -> Prop) (a b : list A) :
  Forall P a -> Forall P b -> Forall P (a ++ b).
Proof. intros Ha Hb. apply Forall_app. auto. Qed.

Lemma write_decision_flag tweet kf write_record keyword_flag :
  write_decision tweet kf = Ok (write_record, keyword_flag) ->
  keyword_flag = flag_of kf.
Proof.
  unfold write_decision. destruct kf as [k |]; intro H.
  - bind_inv H as b Hb. injection H as _ <-. reflexivity.
  - injection H as _ <-. reflexivity.
Qed.

Lemma record_user_keys tweet user_record :
  record_user tweet = Ok user_record ->
  keys user_record = USER_FIELDS_OUT ++ ["tweet.created_at"].
Proof.
  unfold record_user. intro H.
  bind_inv H as user Huser. bind_inv H as created Hcreated.
  apply (for_each_store (py_get user) user_field_out (fun v => v)) in H.
  destruct H as [K _]. rewrite K; [reflexivity |].
  apply Forall_forall. intros x Hx. apply In_existsb.
  revert x Hx. apply forallb_forall. reflexivity.
Qed.

Lemma record_user_Ok_inv tweet user_record :
  record_user tweet = Ok user_record ->
  exists members user,
    tweet = JObj members /\ lookup "user" members = Some (JObj user).
Proof.
  unfold record_user. intro H.
  bind_inv H as user Huser. bind_inv H as created Hcreated.
  destruct (py_get_Ok_object _ _ _ Huser) as [members ->].
  apply (for_each_store (py_get user) user_field_out (fun v => v)) in H.
  destruct H as [_ V].
  destruct (V (user_field_out "name")) as [[Hn _] | (x & b & _ & _ & Hg & _)].
  - exfalso. apply Hn. apply In_existsb. reflexivity.
  - destruct (py_get_Ok_object _ _ _ Hg) as [fields ->].
    exists members, fields. split; [reflexivity |].
    simpl in Huser. destruct (lookup "user" members) as [u |].
    + injection Huser as ->. reflexivity.
    + discriminate Huser.
Qed.

(** X8: under a filtering rule with keywords and a flag column that is
    not [user.id_str], every tweet row that is written holds [True] in
    the flag column: a filtered output never has an unflagged tweet. *)
Theorem filtered_rows_are_flagged k terms output_file :
  KeywordFilter.do_filter k = true ->
  KeywordFilter.keywords k = Some terms ->
  KeywordFilter.flag k <> "" ->
  KeywordFilter.flag k <> "user.id_str" ->
  (forall tweet,
     Forall (fun r => row_is_user r = false ->
                      lookup (KeywordFilter.flag k) (row_record r)
                      = Some (JBool true))
       (fst (process_tweet tweet output_file (Some k)))) /\
  (forall lines,
     Forall (fun r => row_is_user r = false ->
                      lookup (KeywordFilter.flag k) (row_record r)
                      = Some (JBool true))
       (fst (process_file_lines lines output_file (Some k)))).
Proof.
  intros Hf Hk Hflag Hnot.
  assert (H : forall tweet,
             Forall (fun r => row_is_user r = false ->
                              lookup (KeywordFilter.flag k) (row_record r)
                              = Some (JBool true))
               (fst (process_tweet tweet output_file (Some k)))).
  { intro tweet. unfold process_tweet.
    apply process_tweet_aux_trace.
    - constructor.
    - intros a b. apply Forall_app_2.
    - intros t keyword_flag record urec refs Hd Hb.
      pose proof (write_decision_flag _ _ _ _ Hd) as ->. cbn [flag_of] in *.
      unfold write_decision in Hd. bind_inv Hd as b Hdw. injection Hd as ->.
      unfold KeywordFilter.decide_write in Hdw. bind_inv Hdw as has Hcheck.
      rewrite Hf, Hk in Hdw. simpl in Hdw. injection Hdw as ->.
      apply build_records_inv in Hb.
      destruct Hb as (r0 & r1 & uid & _ & H1 & _ & _ & ->).
      assert (Ht : flag_truthy (Some (KeywordFilter.flag k)) = true).
      { simpl. destruct (String.eqb_spec (KeywordFilter.flag k) "");
          [contradiction | reflexivity]. }
      rewrite Ht in H1. destruct H1 as (k' & m & Hk' & Hm & ->).
      injection Hk' as <-. rewrite Hcheck in Hm. injection Hm as <-.
      constructor; [| constructor; [discriminate | constructor]].
      intros _. cbn [row_record].
      rewrite lookup_dict_set_other by exact Hnot.
      apply lookup_dict_set_same. }
  split; [exact H |].
  apply process_file_lines_trace;
    [constructor | intros a b; apply Forall_app_2 | exact H].
Qed.

Lemma build_records_keys tweet kf record user_record refs :
  build_records tweet kf (flag_of kf) = Ok (record, user_record, refs) ->
  keys record = record_columns (flag_of kf) /\
  keys user_record = USER_FIELDS_OUT ++ ["tweet.created_at"].
Proof.
  intro Hb. apply build_records_inv in Hb.
  destruct Hb as (r0 & r1 & uid & H0 & H1 & Hu & _ & ->).
  apply record_tweet_inv in H0.
  destruct H0 as (_ & _ & _ & _ & _ & _ & _ & _ & _ & K0 & _).
  split; [| eapply record_user_keys; exact Hu].
  assert (K1 : keys r1 = record_columns (flag_of kf)).
  { unfold record_columns. destruct (flag_of kf) as [f |];
      [| subst r1; exact K0].
    destruct (flag_truthy (Some f)); [| subst r1; exact K0].
    destruct H1 as (k' & m & _ & _ & ->). cbn [andb].
    destruct (existsb (String.eqb f) FIELDNAMES) eqn:E; cbn [negb].
    - rewrite keys_dict_set_bound; [exact K0 |].
      rewrite K0. apply In_existsb. exact E.
    - rewrite keys_dict_set_new; [rewrite K0; reflexivity |].
      rewrite K0. apply not_In_existsb. exact E. }
  rewrite keys_dict_set_bound; [exact K1 |].
  rewrite K1. unfold record_columns.
  destruct (flag_of kf) as [f |];
    [destruct (_ && _); [apply in_or_app; left |] |];
    apply In_existsb; reflexivity.
Qed.

(** X9: every row that [process_tweet] writes names the output file and
    the flag column of the call; a user row has the keys of
    [USER_FIELDS_OUT] and then [tweet.created_at]; a tweet row has the
    keys of [FIELDNAMES], followed by the flag column when the rule
    names one that is not already a schema key. *)
Theorem row_schemas output_file kf :
  (forall tweet,
     Forall (fun r =>
               row_output_filename r = output_file /\
               row_keywordflag r = flag_of kf /\
               keys (row_record r)
               = if row_is_user r
                 then USER_FIELDS_OUT ++ ["tweet.created_at"]
                 else record_columns (flag_of kf))
       (fst (process_tweet tweet output_file kf))) /\
  (forall lines,
     Forall (fun r =>
               row_output_filename r = output_file /\
               row_keywordflag r = flag_of kf /\
               keys (row_record r)
               = if row_is_user r
                 then USER_FIELDS_OUT ++ ["tweet.created_at"]
                 else record_columns (flag_of kf))
       (fst (process_file_lines lines output_file kf))).
Proof.
  assert (H : forall tweet,
             Forall (fun r =>
                       row_output_filename r = output_file /\
                       row_keywordflag r = flag_of kf /\
                       keys (row_record r)
                       = if row_is_user r
                         then USER_FIELDS_OUT ++ ["tweet.created_at"]
                         else record_columns (flag_of kf))
               (fst (process_tweet tweet output_file kf))).
  { intro tweet. unfold process_tweet.
    apply process_tweet_aux_trace.
    - constructor.
    - intros a b. apply Forall_app_2.
    - intros t keyword_flag record urec refs Hd Hb.
      pose proof (write_decision_flag _ _ _ _ Hd) as ->.
      apply build_records_keys in Hb. destruct Hb as [Kr Ku].
      constructor; [| constructor; [| constructor]];
        cbn [row_output_filename row_keywordflag row_record row_is_user];
        auto. }
  split; [exact H |].
  apply process_file_lines_trace;
    [constructor | intros a b; apply Forall_app_2 | exact H].
Qed.

(** X10: when the first embedded tweet of a retained tweet makes
    [process_tweet] raise, the call on the outer tweet raises the same
    exception after its own two rows, and what the embedded call wrote,
    have been written; the embedded tweets after it are not processed. *)
Theorem failing_embedded_tweet tweet output_file kf keyword_flag
    record user_record first rest written e :
  write_decision tweet kf = Ok (true, keyword_flag) ->
  build_records tweet kf keyword_flag
  = Ok (record, user_record, first :: rest) ->
  process_tweet first output_file kf = (written, Err e) ->
  process_tweet tweet output_file kf
  = (Row record output_file false keyword_flag
     :: Row user_record output_file true keyword_flag :: written, Err e).
Proof.
  intros Hd Hb Hfirst.
  rewrite process_tweet_unfold, Hd, Hb. cbn [for_refs].
  rewrite Hfirst. reflexivity.
Qed.

(** X11: [process_tweet] writes rows only for a tweet that is an object
    with an object under [user]: a line that decodes to anything else
    leaves no row, with or without a filter. *)
Theorem rows_need_a_user tweet output_file kf :
  fst (process_tweet tweet output_file kf) <> [] ->
  exists members user,
    tweet = JObj members /\ lookup "user" members = Some (JObj user).
Proof.
  unfold process_tweet. cbn [process_tweet_aux]. intro H.
  destruct (write_decision tweet kf) as [[write_record keyword_flag] |];
    [| contradiction H; reflexivity].
  destruct write_record; [| contradiction H; reflexivity].
  destruct (build_records tweet kf keyword_flag)
    as [[[record user_record] refs] |] eqn:Hb; [| contradiction H; reflexivity].
  apply build_records_inv in Hb.
  destruct Hb as (_ & _ & _ & _ & _ & Hu & _).
  eapply record_user_Ok_inv; exact Hu.
Qed.

(** ** The files *)









Lemma row_cells_app a b (record : dict value) :
  row_cells (a ++ b) record = row_cells a record ++ row_cells b record.
Proof. unfold row_cells. apply map_app. Qed.

(** With a record whose keys are distinct and are the columns, the cells
    are the values of the record, in order. *)
Lemma row_cells_keys (record : dict value) :
  NoDup (keys record) -> row_cells (keys record) record = map snd record.
Proof.
  induction record as [| [k v] rest IH]; intro Hnd; [reflexivity |].
  inversion Hnd as [| ? ? Hk Hrest]; subst.
  unfold row_cells in *. cbn [keys map fst snd lookup].
  rewrite String.eqb_refl. f_equal.
  rewrite <- (IH Hrest). apply map_ext_in.
  intros key Hin. cbn [lookup].
  destruct (String.eqb_spec key k) as [-> | _]; [contradiction | reflexivity].
Qed.

Lemma NoDup_FIELDNAMES : NoDup FIELDNAMES.
Proof.
  unfold FIELDNAMES, BASIC_FIELDS, TWEET_REF_FIELDS, ENTITY_FIELDS.
  cbn [app].
  repeat (constructor; [apply not_In_existsb; reflexivity |]). constructor.
Qed.

Lemma NoDup_user_columns : NoDup (USER_FIELDS_OUT ++ ["tweet.created_at"]).
Proof.
  unfold USER_FIELDS_OUT, USER_FIELDS. cbn [map app].
  repeat (constructor; [apply not_In_existsb; reflexivity |]). constructor.
Qed.

Lemma NoDup_snoc (l : list string) x : NoDup l -> ~ In x l -> NoDup (l ++ [x]).
Proof.
  intros Hl Hx. apply NoDup_app.
  - exact Hl.
  - constructor; [intros [] | constructor].
  - intros a Ha [<- | []]. contradiction.
Qed.

(** X13: when the flag column, if any, is not a schema key, the line
    written for a tweet row holds the values of the record in the order of
    its keys, nothing being filled in for a missing key; the line written
    for a user row holds the values of the snapshot without the last one,
    [tweet.created_at], which is never written. *)
Theorem written_cells_are_record_values output_file kf :
  (forall f, flag_of kf = Some f -> f <> "" -> ~ In f FIELDNAMES) ->
  forall tweet,
    Forall (fun r =>
              if row_is_user r
              then row_cells USER_FIELDS_OUT (row_record r)
                   = removelast (map snd (row_record r))
              else row_cells (tweet_columns (row_keywordflag r)) (row_record r)
                   = map snd (row_record r))
      (fst (process_tweet tweet output_file kf)).
Proof.
  intros Hflag tweet. unfold process_tweet.
  apply process_tweet_aux_trace.
  - constructor.
  - intros a b. apply Forall_app_2.
  - intros t keyword_flag record urec refs Hd Hb.
    pose proof (write_decision_flag _ _ _ _ Hd) as ->.
    apply build_records_keys in Hb. destruct Hb as [Kr Ku].
    constructor; [| constructor; [| constructor]];
      cbn [row_keywordflag row_record row_is_user].
    + assert (Hcols : tweet_columns (flag_of kf) = keys record /\
                      NoDup (keys record)).
      { rewrite Kr. unfold tweet_columns, record_columns.
        destruct (flag_of kf) as [f |] eqn:Ef;
          [| split; [reflexivity | apply NoDup_FIELDNAMES]].
        destruct (flag_truthy (Some f)) eqn:Et;
          [| split; [reflexivity | apply NoDup_FIELDNAMES]].
        assert (Hn : ~ In f FIELDNAMES).
        { apply (Hflag f eq_refl). intros ->. discriminate Et. }
        assert (existsb (String.eqb f) FIELDNAMES = false) as ->.
        { destruct (existsb (String.eqb f) FIELDNAMES) eqn:E; [| reflexivity].
          exfalso. apply Hn. apply In_existsb. exact E. }
        split; [reflexivity |]. apply NoDup_snoc; [apply NoDup_FIELDNAMES | exact Hn]. }
      destruct Hcols as [-> Hnd]. apply row_cells_keys. exact Hnd.
    + pose proof (row_cells_keys urec) as H. rewrite Ku in H.
      specialize (H NoDup_user_columns). rewrite row_cells_app in H.
      rewrite <- H. cbn [row_cells map]. rewrite removelast_last. reflexivity.
Qed.

Lemma process_file_lines_app_aux l1 l2 output_file kf :
  process_file_lines (l1 ++ l2) output_file kf
  = (fst (process_file_lines l1 output_file kf)
     ++ fst (process_file_lines l2 output_file kf),
     snd (process_file_lines l1 output_file kf)
     ++ snd (process_file_lines l2 output_file kf)).
Proof.
  induction l1 as [| line rest IH]; cbn [app process_file_lines].
  - destruct (process_file_lines l2 output_file kf); reflexivity.
  - rewrite IH.
    destruct (process_file_lines rest output_file kf) as [rows1 reported1].
    destruct (process_file_lines l2 output_file kf) as [rows2 reported2].
    cbn [fst snd].
    destruct line as [tweet |];
      [destruct (process_tweet tweet output_file kf) as [written [[] | e]] |];
      cbn [fst snd]; rewrite <- !app_assoc; reflexivity.
Qed.

(** X14: the loop of [process_file] never stops at a line: what it writes
    and reports for an input is what it writes and reports for any first
    part followed by what it does for the rest; a line that does not
    decode writes nothing and is reported once; there are never more
    reports than lines. *)
Theorem process_file_line_by_line output_file kf :
  (forall l1 l2,
     process_file_lines (l1 ++ l2) output_file kf
     = (fst (process_file_lines l1 output_file kf)
        ++ fst (process_file_lines l2 output_file kf),
        snd (process_file_lines l1 output_file kf)
        ++ snd (process_file_lines l2 output_file kf))) /\
  (forall l1 l2,
     process_file_lines (l1 ++ None :: l2) output_file kf
     = (fst (process_file_lines l1 output_file kf)
        ++ fst (process_file_lines l2 output_file kf),
        snd (process_file_lines l1 output_file kf)
        ++ None :: snd (process_file_lines l2 output_file kf))) /\
  (forall lines,
     List.length (snd (process_file_lines lines output_file kf))
     <= List.length lines).
Proof.
  split; [| split].
  - intros l1 l2. apply process_file_lines_app_aux.
  - intros l1 l2. rewrite process_file_lines_app_aux.
    cbn [process_file_lines].
    destruct (process_file_lines l2 output_file kf); reflexivity.
  - induction lines as [| line rest IH]; [apply le_n |].
    cbn [process_file_lines].
    destruct (process_file_lines rest output_file kf) as [more reported'].
    cbn [snd] in IH.
    destruct line as [tweet |];
      [destruct (process_tweet tweet output_file kf) as [written [[] | e]] |];
      cbn [snd app List.length]; lia.
Qed.

(** ** Levels that are absent *)

Lemma is_None_spec v : is_None v = true -> v = JNull.
Proof. destruct v; simpl; intro H; congruence. Qed.

(** X15: on a truncated tweet, a level of entities that is absent or
    null counts as a level with no entities: whichever of the three
    levels exist, each field of the bundle is what [parse_entity_details]
    gives for the base level, followed by what it gives for
    [extended_tweet.entities] and for [extended_tweet.extended_entities]. *)
Theorem absent_levels_count_as_empty tweet extended e1 e2 e3 r :
  py_get tweet "truncated" = Ok (JBool true) ->
  py_get tweet "entities" = Ok e1 ->
  py_get tweet "extended_tweet" = Ok extended ->
  py_get extended "entities" = Ok e2 ->
  py_get extended "extended_entities" = Ok e3 ->
  extract_entities tweet = Ok r ->
  exists r1 r2 r3,
    parse_entity_details e1 = Ok r1 /\
    parse_entity_details e2 = Ok r2 /\
    parse_entity_details e3 = Ok r3 /\
    forall field,
      In field ENTITY_FIELDS ->
      exists l1 l2 l3,
        lookup field r1 = Some l1 /\
        lookup field r2 = Some l2 /\
        lookup field r3 = Some l3 /\
        lookup field r = Some (l1 ++ l2 ++ l3).
Proof.
  intros Htr H1 Hext H2 H3 H. unfold extract_entities in H.
  rewrite H1 in H. cbn [bind] in H. bind_inv H as r1 P1.
  rewrite Htr in H. cbn [bind is_True] in H.
  rewrite Hext in H. cbn [bind] in H. rewrite H2 in H. cbn [bind] in H.
  bind_inv H as r12 X12. rewrite H3 in H. cbn [bind] in H.
  pose proof (parse_entity_details_shape _ _ P1)
    as (u1 & i1 & n1 & s1 & h1 & m1 & ->).
  assert (L2 : exists u2 i2 n2 s2 h2 m2,
             parse_entity_details e2
             = Ok [("urls", u2); ("user_id_mentions", i2);
                   ("user_screenname_mentions", n2); ("symbols", s2);
                   ("hashtags", h2); ("media", m2)] /\
             r12 = [("urls", u1 ++ u2); ("user_id_mentions", i1 ++ i2);
                    ("user_screenname_mentions", n1 ++ n2);
                    ("symbols", s1 ++ s2); ("hashtags", h1 ++ h2);
                    ("media", m1 ++ m2)]).
  { destruct (is_None e2) eqn:E.
    - apply is_None_spec in E. subst e2. injection X12 as <-.
      exists [], [], [], [], [], []. split; [reflexivity |].
      rewrite !app_nil_r. reflexivity.
    - bind_inv X12 as r2 P2.
      pose proof (parse_entity_details_shape _ _ P2)
        as (u2 & i2 & n2 & s2 & h2 & m2 & ->).
      rewrite extend_fields_shape in X12. injection X12 as <-.
      exists u2, i2, n2, s2, h2, m2. split; [exact P2 | reflexivity]. }
  destruct L2 as (u2 & i2 & n2 & s2 & h2 & m2 & P2 & ->).
  assert (L3 : exists u3 i3 n3 s3 h3 m3,
             parse_entity_details e3
             = Ok [("urls", u3); ("user_id_mentions", i3);
                   ("user_screenname_mentions", n3); ("symbols", s3);
                   ("hashtags", h3); ("media", m3)] /\
             r = [("urls", u1 ++ u2 ++ u3); ("user_id_mentions", i1 ++ i2 ++ i3);
                  ("user_screenname_mentions", n1 ++ n2 ++ n3);
                  ("symbols", s1 ++ s2 ++ s3); ("hashtags", h1 ++ h2 ++ h3);
                  ("media", m1 ++ m2 ++ m3)]).
  { destruct (is_None e3) eqn:E.
    - apply is_None_spec in E. subst e3. injection H as <-.
      exists [], [], [], [], [], []. split; [reflexivity |].
      rewrite !app_nil_r. reflexivity.
    - bind_inv H as r3 P3.
      pose proof (parse_entity_details_shape _ _ P3)
        as (u3 & i3 & n3 & s3 & h3 & m3 & ->).
      rewrite extend_fields_shape in H. injection H as <-.
      exists u3, i3, n3, s3, h3, m3. split; [exact P3 |].
      rewrite <- !app_assoc. reflexivity. }
  destruct L3 as (u3 & i3 & n3 & s3 & h3 & m3 & P3 & ->).
  eexists. eexists. eexists.
  split; [exact P1 |]. split; [exact P2 |]. split; [exact P3 |].
  intros field Hin. simpl in Hin.
  destruct Hin as [<- | [<- | [<- | [<- | [<- | [<- | []]]]]]];
    do 3 eexists; repeat split.
Qed.

(** ** A rule without keywords *)

Ltac step_bind :=
  match goal with
  | |- exists e, bind ?m _ = Err e =>
      let e := fresh "e" in
      destruct m as [? | e]; [cbn [bind] | exists e; reflexivity]
  | |- exists e, (if ?b then _ else _) = Err e => destruct b
  | |- exists e, (let '(_, _) := ?p in _) = Err e => destruct p
  | |- exists e, Err ?x = Err e => exists x; reflexivity
  end.

Lemma call_without_keywords kf m tweet :
  KeywordFilter.keywords kf = None ->
  exists e, KeywordFilter.call kf m tweet = Err e.
Proof.
  intro Hk.
  assert (Hiter : KeywordFilter.iter_keywords kf = Err TypeError).
  { unfold KeywordFilter.iter_keywords. rewrite Hk. reflexivity. }
  destruct m; cbn [KeywordFilter.call].
  - unfold KeywordFilter.check_author. rewrite Hiter. repeat step_bind.
  - unfold KeywordFilter.check_text. rewrite Hiter. repeat step_bind.
  - unfold KeywordFilter.check_entities. rewrite Hiter. repeat step_bind.
Qed.

(** X17: a rule whose keyword list is [None] cannot classify: as soon as
    one check is enabled, [check_tweet] and [decide_write] raise on every
    tweet, so the test [self.keywords is None] of [decide_write] only
    ever decides for a rule with an empty filter table. *)
Theorem no_keywords_always_raises kf :
  KeywordFilter.keywords kf = None ->
  KeywordFilter.filters kf <> [] ->
  forall tweet,
    (exists e, KeywordFilter.check_tweet kf tweet = Err e) /\
    (exists e, KeywordFilter.decide_write kf tweet = Err e).
Proof.
  intros Hk Hne tweet.
  assert (Hc : exists e, KeywordFilter.check_tweet kf tweet = Err e).
  { unfold KeywordFilter.check_tweet.
    destruct (KeywordFilter.filters kf) as [| [field m] rest] eqn:Hf;
      [contradiction |].
    cbn [keys map fst comprehension]. unfold dict_getitem at 1.
    cbn [lookup]. rewrite String.eqb_refl. cbn [bind].
    destruct (call_without_keywords kf m tweet Hk) as [e ->].
    exists e. reflexivity. }
  split; [exact Hc |]. destruct Hc as [e Hc]. exists e.
  unfold KeywordFilter.decide_write. rewrite Hc. reflexivity.
Qed.

End Properties.

(** * Examples

    The examples are made of 7-bit text and are evaluated with what
    Python's [lower] and [strip] do on such text. *)

#[local] Existing Instance ascii_text.

Lemma extract_entities_merge_order_witness :
  exists r,
    extract_entities sample_truncated = Ok r /\
    lookup "hashtags" r = Some [JStr "a"; JStr "b"; JStr "a"].
Proof.
  destruct (extract_entities_merge_order sample_truncated sample_extended
              [("hashtags", JArr [JObj [("text", JStr "a")]]);
               ("user_mentions",
                JArr [JObj [("id_str", JStr "8"); ("screen_name", JStr "al")]])]
              [("hashtags", JArr [JObj [("text", JStr "b")];
                                  JObj [("text", JStr "a")]])]
              [("media", JArr [JObj [("media_url", JStr "http://m/1")]])]
              eq_refl eq_refl eq_refl eq_refl eq_refl) as [Htotal _].
  destruct (Htotal eq_refl eq_refl eq_refl) as [r Hr].
  exists r. split; [exact Hr |].
  vm_compute in Hr. injection Hr as <-. reflexivity.
Defined.

Lemma record_tweet_schema_witness :
  exists record refs,
    record_tweet (JObj [("id_str", JStr "1"); ("text", JStr "hello")])
    = Ok (record, refs) /\
    keys record = FIELDNAMES /\
    lookup "place" record = Some JNull.
Proof.
  eexists. eexists. split; [reflexivity |].
  match goal with
  | |- keys ?r = _ /\ _ =>
      destruct (record_tweet_schema
                  (JObj [("id_str", JStr "1"); ("text", JStr "hello")])
                  r [] eq_refl) as (K & _ & N & _)
  end.
  split; [exact K |].
  apply N; [apply In_existsb; reflexivity | reflexivity | discriminate].
Defined.

Lemma decide_write_policy_witness :
  KeywordFilter.decide_write annotate_only
    (JObj [("truncated", JBool false); ("text", JStr "say Hello");
           ("user", JObj [("screen_name", JStr "bob")])])
  = Ok true /\
  exists e,
    process_tweet sample_plain "out" (Some annotate_only) = ([], Err e).
Proof.
  split.
  - exact (proj1 (proj1 (proj2
             (decide_write_policy annotate_only
                (JObj [("truncated", JBool false); ("text", JStr "say Hello");
                       ("user", JObj [("screen_name", JStr "bob")])])))
             true eq_refl) eq_refl).
  - destruct (proj2 (proj2 (decide_write_policy annotate_only sample_plain))
                "text" KeywordFilter.CheckText (KeyError "truncated")
                eq_refl eq_refl) as (e & _ & Hrows).
    exists e. apply Hrows.
Defined.


Lemma check_author_strips_keywords_witness :
  KeywordFilter.decide_write (author_rule ["jane doe"]) (tweet_by "janedoe")
  = Ok true.
Proof.
  rewrite (proj2 (check_author_strips_keywords (author_rule ["jane doe"])
                    (tweet_by "janedoe") ["jane doe"]
                    (JObj [("screen_name", JStr "janedoe")]) "janedoe"
                    eq_refl eq_refl eq_refl) eq_refl eq_refl).
  reflexivity.
Defined.

Lemma check_entities_needs_both_members_witness :
  KeywordFilter.check_entities annotate_only
    (JObj [("truncated", JBool false);
           ("entities", JObj [("urls", JArr [])])])
  = Err TypeError /\
  exists r, parse_entity_details (JObj [("urls", JArr [])]) = Ok r.
Proof.
  destruct (check_entities_needs_both_members annotate_only
              (JObj [("truncated", JBool false);
                     ("entities", JObj [("urls", JArr [])])])
              [("urls", JArr [])] eq_refl)
    as (_ & Hraise & _ & Htotal).
  - discriminate.
  - left; reflexivity.
  - split; [apply Hraise; reflexivity | apply Htotal; reflexivity].
Defined.

Lemma truncated_flag_readings_witness :
  (exists record refs, record_tweet (JObj sample_truthy) = Ok (record, refs)) /\
  KeywordFilter.check_text annotate_only (JObj sample_truthy)
  = Err (KeyError "extended_tweet").
Proof.
  destruct (truncated_flag_readings sample_truthy (JStr "yes") eq_refl)
    as (F & _ & _ & C).
  split.
  - apply F; [discriminate | reflexivity | reflexivity |].
    eexists; reflexivity.
  - rewrite (proj1 (C eq_refl eq_refl annotate_only)). reflexivity.
Defined.

Lemma embedded_tweets_handed_back_witness :
  exists record,
    record_tweet sample_retweet
    = Ok (record, [JObj sample_retweeted; sample_quoted]) /\
    lookup "retweeted_status" record = Some (JStr "123") /\
    map (fun r => lookup "id_str" (row_record r))
      (filter (fun r => negb (row_is_user r))
         (fst (process_tweet sample_retweet "out" None)))
    = [Some (JStr "200"); Some (JStr "123"); Some (JStr "77")].
Proof.
  eexists. split; [reflexivity |].
  split; [| reflexivity].
  match goal with
  | |- lookup _ ?r = _ =>
      apply (proj1 (embedded_tweets_handed_back sample_retweet sample_retweeted
                      eq_refl eq_refl)
               r [JObj sample_retweeted; sample_quoted] eq_refl)
  end.
Defined.

Lemma record_user_snapshot_witness :
  exists user_record,
    record_user sample_plain = Ok user_record /\
    lookup "user.screen_name" user_record = Some (JStr "bob") /\
    lookup "user.location" user_record = Some JNull.
Proof.
  destruct (proj2 (record_user_snapshot sample_plain) _ _ eq_refl eq_refl)
    as [r Hr].
  exists r. split; [exact Hr |].
  vm_compute in Hr. injection Hr as <-. split; reflexivity.
Defined.

Lemma mention_lists_parallel_witness :
  exists ids names,
    lookup "user_id_mentions"
      [("urls", []); ("user_id_mentions", [JStr "8"]);
       ("user_screenname_mentions", [JStr "al"]); ("symbols", []);
       ("hashtags", [JStr "a"; JStr "b"; JStr "a"]);
       ("media", [JStr "http://m/1"])] = Some ids /\
    lookup "user_screenname_mentions"
      [("urls", []); ("user_id_mentions", [JStr "8"]);
       ("user_screenname_mentions", [JStr "al"]); ("symbols", []);
       ("hashtags", [JStr "a"; JStr "b"; JStr "a"]);
       ("media", [JStr "http://m/1"])] = Some names /\
    List.length ids = List.length names.
Proof.
  exact (proj1 (mention_lists_parallel sample_truncated) _ eq_refl).
Defined.

Lemma one_failing_check_fails_all_witness :
  exists e',
    KeywordFilter.decide_write
      (KeywordFilter.mk (Some ["bob"]) "contains_keyword" true
         KeywordFilter.FILTERS)
      sample_plain = Err e'.
Proof.
  exact (proj1 (proj2
           (one_failing_check_fails_all
              (KeywordFilter.mk (Some ["bob"]) "contains_keyword" true
                 KeywordFilter.FILTERS)
              sample_plain "text" KeywordFilter.CheckText
              (KeyError "truncated") eq_refl eq_refl))).
Defined.




Lemma filtered_rows_are_flagged_witness :
  Forall (fun r => row_is_user r = false ->
                   lookup "contains_keyword" (row_record r) = Some (JBool true))
    (fst (process_tweet (tweet_by "bob") "out" (Some (text_rule ["ai"])))).
Proof.
  apply (proj1 (filtered_rows_are_flagged (text_rule ["ai"]) ["ai"] "out"
                  eq_refl eq_refl ltac:(discriminate) ltac:(discriminate))).
Defined.

Lemma failing_embedded_tweet_witness :
  exists record user_record,
    process_tweet sample_broken_retweet "out" None
    = ([Row record "out" false None; Row user_record "out" true None],
       Err AttributeError).
Proof.
  eexists. eexists.
  apply (failing_embedded_tweet sample_broken_retweet "out" None None _ _
           (JObj [("id_str", JStr "123")]) [sample_quoted] []
           AttributeError); reflexivity.
Defined.

Lemma rows_need_a_user_witness :
  exists members user,
    sample_plain = JObj members /\ lookup "user" members = Some (JObj user).
Proof.
  apply (rows_need_a_user sample_plain "out" None).
  vm_compute. discriminate.
Defined.


Lemma written_cells_are_record_values_witness :
  Forall (fun r =>
            if row_is_user r
            then row_cells USER_FIELDS_OUT (row_record r)
                 = removelast (map snd (row_record r))
            else row_cells (tweet_columns (row_keywordflag r)) (row_record r)
                 = map snd (row_record r))
    (fst (process_tweet (tweet_by "bob") "out" (Some (text_rule ["ai"])))).
Proof.
  apply (written_cells_are_record_values "out" (Some (text_rule ["ai"]))).
  intros f Hf _. injection Hf as <-. apply not_In_existsb. reflexivity.
Defined.

Lemma absent_levels_count_as_empty_witness :
  exists l1 l2 l3,
    l1 ++ l2 ++ l3 = [JStr "a"; JStr "b"; JStr "a"] /\
    lookup "hashtags"
      [("urls", []); ("user_id_mentions", [JStr "8"]);
       ("user_screenname_mentions", [JStr "al"]); ("symbols", []);
       ("hashtags", [JStr "a"; JStr "b"; JStr "a"]);
       ("media", [JStr "http://m/1"])]
    = Some (l1 ++ l2 ++ l3).
Proof.
  destruct (absent_levels_count_as_empty sample_truncated sample_extended
              _ _ _ _ eq_refl eq_refl eq_refl eq_refl eq_refl eq_refl)
    as (r1 & r2 & r3 & P1 & P2 & P3 & Hfields).
  destruct (Hfields "hashtags") as (l1 & l2 & l3 & _ & _ & _ & Hl);
    [apply In_existsb; reflexivity |].
  exists l1, l2, l3. split; [| exact Hl].
  simpl in Hl. injection Hl as <-. reflexivity.
Defined.

Lemma no_keywords_always_raises_witness :
  exists e,
    KeywordFilter.decide_write
      (KeywordFilter.mk None "contains_keyword" false KeywordFilter.FILTERS)
      (tweet_by "bob") = Err e.
Proof.
  apply (no_keywords_always_raises
           (KeywordFilter.mk None "contains_keyword" false KeywordFilter.FILTERS)
           eq_refl ltac:(discriminate) (tweet_by "bob")).
Defined.

Lemma annotate_only_drops :
  KeywordFilter.do_filter annotate_only = false /\
  KeywordFilter.decide_write annotate_only sample_plain
  = Err (KeyError "truncated") /\
  process_tweet sample_plain "out" (Some annotate_only)
  = ([], Err (KeyError "truncated")) /\
  List.length (fst (process_tweet sample_plain "out" None)) = 2 /\
  KeywordFilter.init None "contains_keyword" true (Some ["hashtags"])
  = Ok no_keywords_rule /\
  KeywordFilter.check_tweet no_keywords_rule sample_plain = Ok false /\
  KeywordFilter.decide_write no_keywords_rule sample_plain = Ok true /\
  List.length (fst (process_tweet sample_plain "out" (Some no_keywords_rule))) = 2.
Proof. repeat split. Qed.


Lemma spaced_screen_name_not_matched :
  KeywordFilter.check_author (author_rule ["janedoe"]) (tweet_by "jane doe")
  = Ok false /\
  KeywordFilter.decide_write (author_rule ["janedoe"]) (tweet_by "jane doe")
  = Ok false.
Proof. split; reflexivity. Qed.

Lemma unknown_filter_name_accepted :
  KeywordFilter.init (Some ["ai"]) "contains_keyword" true
    (Some ["author"; "hashtags"])
  = Ok (author_rule ["ai"]) /\
  KeywordFilter.init (Some ["ai"]) "contains_keyword" true (Some ["hashtags"])
  = Ok (KeywordFilter.mk (Some ["ai"]) "contains_keyword" true []).
Proof. split; reflexivity. Qed.
